(** * pte_decode.decoding: decoder base class and decoder factory

    A shallow embedding of [decoder_base.py] and [decoder_factory.py].
    The statistical models, the resamplers of imbalanced-learn and the
    group splitter of scikit-learn are external capabilities: they are
    the fields of the class [Capabilities] below and every general
    theorem holds for all of their behaviours. *)

From Stdlib Require Import List String Ascii ZArith QArith Qround Bool Lia.
From Stdlib Require Import Permutation.
Import ListNotations.
Open Scope string_scope.

(** ** Results of fallible code *)

Inductive result (E A : Type) : Type :=
| Ok (a : A)
| Err (e : E).
Arguments Ok {E A} a.
Arguments Err {E A} e.

Definition bind {E A B} (r : result E A) (k : A -> result E B) : result E B :=
  match r with
  | Ok a => k a
  | Err e => Err e
  end.

Definition map_err {E F A} (f : E -> F) (r : result E A) : result F A :=
  match r with
  | Ok a => Ok a
  | Err e => Err (f e)
  end.

Definition is_ok {E A} (r : result E A) : bool :=
  match r with
  | Ok _ => true
  | Err _ => false
  end.

Declare Scope result_scope.
Delimit Scope result_scope with result.
Notation "x <- c ;; k" := (bind c (fun x => k))
  (at level 61, c at next level, right associativity) : result_scope.
Notation "' pat <- c ;; k" := (bind c (fun x => match x with pat => k end))
  (at level 61, pat pattern, c at next level, right associativity) : result_scope.
Open Scope result_scope.

(** ** Python values and exceptions *)

(** The values that reach a [balancing] / [method] argument:
    a [str], a [bool] or [None]. *)
Inductive method_value : Type :=
| MStr (s : string)
| MBool (b : bool)
| MNone.

(** Python's [method == "literal"]: a bool or [None] never equals a str. *)
Definition method_eq_str (m : method_value) (lit : string) : bool :=
  match m with
  | MStr s => String.eqb s lit
  | MBool _ => false
  | MNone => false
  end.

Definition method_eqb (a b : method_value) : bool :=
  match a, b with
  | MStr s, MStr t => String.eqb s t
  | MBool x, MBool y => Bool.eqb x y
  | MNone, MNone => true
  | _, _ => false
  end.

(** An element of [error.args]. *)
Inductive pyarg : Type :=
| AStr (s : string)
| AObj.

Definition pyarg_eq_str (a : pyarg) (lit : string) : bool :=
  match a with
  | AStr s => String.eqb s lit
  | AObj => false
  end.

(** An exception raised by a builtin or by an external capability: the
    names of its class and of the classes it derives from, and [args]. *)
Record py_exception : Type := mk_exception {
  exc_mro : list string;
  exc_args : list pyarg
}.

(** [isinstance(error, cls)], which is what [except cls] tests. *)
Definition isinstance (e : py_exception) (cls : string) : bool :=
  existsb (String.eqb cls) (exc_mro e).

Definition ValueError (msg : string) : py_exception :=
  mk_exception ["ValueError"; "Exception"; "BaseException"] [AStr msg].
Definition IndexError (msg : string) : py_exception :=
  mk_exception ["IndexError"; "LookupError"; "Exception"; "BaseException"] [AStr msg].
Definition AttributeError (msg : string) : py_exception :=
  mk_exception ["AttributeError"; "Exception"; "BaseException"] [AStr msg].
Definition TypeError (msg : string) : py_exception :=
  mk_exception ["TypeError"; "Exception"; "BaseException"] [AStr msg].

(** The objects handed to the [allowed] parameter of the error classes. *)
Inductive pyobj : Type :=
| DictKeys (ks : list string)         (* [d.keys()] *)
| Dict (ks : list string)             (* a dict, by its keys *)
| DictValuesMethod (ks : list string). (* the bound method [d.values] *)

(** Everything the two modules can raise. *)
Inductive exn : Type :=
| Raised (e : py_exception)
| BalancingMethodNotFoundError (input_value : method_value)
    (allowed : list method_value) (message : string)
| ScoringMethodNotFoundError (input_value : string) (allowed : pyobj)
    (message : string)
| DecoderNotFoundError (input_value : string) (allowed : pyobj)
    (message : string).

Definition lift {A} (r : result py_exception A) : result exn A :=
  map_err Raised r.

(** ** Datasets *)

(** A label array is one-dimensional (a [pd.Series], an array of shape
    [(n,)]) or two-dimensional (an array of shape [(n, k)]). *)
Inductive label_array : Type :=
| Labels1D (v : list Z)
| Labels2D (m : list (list Z)).

Definition ravel (l : label_array) : list Z :=
  match l with
  | Labels1D v => v
  | Labels2D m => List.concat m
  end.

Definition sumZ (v : list Z) : Z := fold_right Z.add 0%Z v.

(** [np.mean(labels)]: the mean of all entries, [None] standing for the
    [nan] of an empty array.  The entries are integers and the mean is
    the exact rational; numpy accumulates in float64, which agrees on the
    test against [0.5] as long as the sum stays within the integers
    float64 holds exactly (class labels do; entries near 2^53 do not). *)
Definition np_mean (l : label_array) : option Q :=
  match ravel l with
  | [] => None
  | v => Some (inject_Z (sumZ v) / inject_Z (Z.of_nat (List.length v)))%Q
  end.

(** [np.mean(labels) != c]; [nan != c] is [True]. *)
Definition mean_ne (l : label_array) (c : Q) : bool :=
  match np_mean l with
  | None => true
  | Some q => negb (Qeq_bool q c)
  end.

(** Rows selected by position; a position past the end raises [oob]. *)
Fixpoint take_rows {A} (oob : py_exception) (rows : list A) (ind : list nat)
  : result py_exception (list A) :=
  match ind with
  | [] => Ok []
  | i :: ind' =>
      match nth_error rows i with
      | None => Err oob
      | Some r => rs <- take_rows oob rows ind' ;; Ok (r :: rs)
      end
  end.

(** [data.iloc[ind, :]] on a [pd.DataFrame]. *)
Definition iloc_rows {A} (data : list (list A)) (ind : list nat)
  : result py_exception (list (list A)) :=
  take_rows (IndexError "positional indexers are out-of-bounds") data ind.

(** [labels[ind, :]]: a selection with two indices.  A two-dimensional
    array gives its rows; a one-dimensional one raises: numpy an
    [IndexError], which the model keeps, a [pd.Series] a [KeyError].
    Both are [LookupError]s. *)
Definition labels_getitem_2d (l : label_array) (ind : list nat)
  : result py_exception label_array :=
  match l with
  | Labels1D _ =>
      Err (IndexError "too many indices for array: array is 1-dimensional, but 2 were indexed")
  | Labels2D m =>
      rs <- take_rows (IndexError "index is out of bounds for axis 0") m ind ;;
      Ok (Labels2D rs)
  end.

(** The resamplers constructed in [_balance_samples], each with
    [sampling_strategy="auto"]. *)
Inductive sampler : Type :=
| RandomOverSampler
| SMOTE (k_neighbors : nat)
| BorderlineSMOTE (k_neighbors : nat) (kind : string)
| ADASYN (n_neighbors : nat)
| RandomUnderSampler.

(** ** Models *)

(** The estimators the boosting backends construct; [tuned] holds the
    optimizer's best parameters when [optimize] is set. *)
Inductive estimator (Params : Type) : Type :=
| CatBoostClassifier (tuned : option Params)
| XGBClassifier (tuned : option Params).
Arguments CatBoostClassifier {Params} tuned.
Arguments XGBClassifier {Params} tuned.

(** The arguments of one [model.fit(...)] call. *)
Record fit_call (Feature : Type) : Type := mk_fit_call {
  fit_data : list (list Feature);
  fit_labels : label_array;
  fit_eval_set : list (list (list Feature) * label_array);
  fit_early_stopping_rounds : nat;
  fit_sample_weight : option (list Q)
}.
Arguments mk_fit_call {Feature}.
Arguments fit_data {Feature}.
Arguments fit_labels {Feature}.
Arguments fit_eval_set {Feature}.
Arguments fit_early_stopping_rounds {Feature}.
Arguments fit_sample_weight {Feature}.

(** The backend classes of [decoder_factory.py]. *)
Inductive backend : Type := CATB | Dummy | LDA | LR | QDA | XGB.

(** ** External capabilities *)

Class Capabilities (Feature Params Model : Type) : Type := {
  (** [sampler.fit_resample(data, labels)] *)
  fit_resample :
    sampler -> list (list Feature) -> label_array ->
    result py_exception (list (list Feature) * label_array);
  (** [compute_sample_weight(class_weight="balanced", y=labels)] *)
  compute_sample_weight : label_array -> result py_exception (list Q);
  (** [next(val_split.split(data, labels, groups))] for
      [val_split = GroupShuffleSplit(n_splits=1, train_size=t)] *)
  group_shuffle_split_next :
    Q -> list (list Feature) -> label_array -> list Z ->
    result py_exception (list nat * list nat);
  (** [optimizer.maximize(...)] over [self._bo_tune], then
      [optimizer.max["params"]], for the decoder's stored training set. *)
  bayes_opt_max :
    backend -> list (list Feature) -> label_array -> list Z -> method_value ->
    result py_exception Params;
  (** [model.fit(...)]: the fitted model. *)
  model_fit :
    estimator Params -> fit_call Feature -> result py_exception Model;
  (** [model.predict(data_test)] *)
  model_predict : Model -> list (list Feature) -> result py_exception (list Z)
}.

(** ** decoder_base.py *)

Section DecoderBase.
Context {Feature Params Model : Type} `{Capabilities Feature Params Model}.

Definition dataframe : Type := list (list Feature).

(** The list [balancing_methods] of [_balance_samples]. *)
Definition balancing_methods : list method_value :=
  [ MStr "oversample"; MStr "smote"; MStr "borderline_smote"; MStr "adasyn";
    MStr "undersample"; MStr "balance_weights"; MBool true; MBool false ].

Definition BalancingMethodNotFoundError_new (input_value : method_value)
    (allowed : list method_value) : exn :=
  BalancingMethodNotFoundError input_value allowed
    "Input balancing method is not an allowed value.".

Definition adasyn_no_samples_message : string :=
  "No samples will be generated with the provided ratio settings.".

(** [Decoder._get_validation_split] *)
Definition _get_validation_split (data : dataframe) (labels : label_array)
    (groups : list Z) (train_size : Q)
  : result exn (dataframe * label_array * list (dataframe * label_array)) :=
  '(train_ind, val_ind) <-
     lift (group_shuffle_split_next train_size data labels groups) ;;
  data_train <- lift (iloc_rows data train_ind) ;;
  data_val <- lift (iloc_rows data val_ind) ;;
  labels_train <- lift (labels_getitem_2d labels train_ind) ;;
  labels_val <- lift (labels_getitem_2d labels val_ind) ;;
  let eval_set := [(data_val, labels_val)] in
  Ok (data_train, labels_train, eval_set).

(** The [try ... except ValueError as error] around the ADASYN resampler:
    the value of [(data, labels)] after the statement, or the exception
    that leaves it. *)
Definition adasyn_try (data : dataframe) (labels : label_array)
  : result exn (dataframe * label_array) :=
  match fit_resample (ADASYN 5) data labels with
  | Ok (data', labels') => Ok (data', labels')
  | Err error =>
      if isinstance error "ValueError" then
        if (0 <? List.length (exc_args error))%nat
           && match exc_args error with
              | a :: _ => pyarg_eq_str a adasyn_no_samples_message
              | [] => false
              end
        then Ok (data, labels)
        else Err (Raised error)
      else Err (Raised error)
  end.

(** [Decoder._balance_samples] *)
Definition _balance_samples (data : dataframe) (labels : label_array)
    (method : method_value)
  : result exn (dataframe * label_array * option (list Q)) :=
  let sample_weight : option (list Q) := None in
  if mean_ne labels (1 # 2) then
    if method_eq_str method "oversample" then
      '(data, labels) <- lift (fit_resample RandomOverSampler data labels) ;;
      Ok (data, labels, sample_weight)
    else if method_eq_str method "smote" then
      '(data, labels) <- lift (fit_resample (SMOTE 5) data labels) ;;
      Ok (data, labels, sample_weight)
    else if method_eq_str method "borderline_smote" then
      '(data, labels) <-
         lift (fit_resample (BorderlineSMOTE 5 "borderline-1") data labels) ;;
      Ok (data, labels, sample_weight)
    else if method_eq_str method "adasyn" then
      '(data, labels) <- adasyn_try data labels ;;
      Ok (data, labels, sample_weight)
    else if method_eq_str method "undersample" then
      '(data, labels) <- lift (fit_resample RandomUnderSampler data labels) ;;
      Ok (data, labels, sample_weight)
    else if method_eq_str method "weight" then
      sample_weight <- lift (compute_sample_weight labels) ;;
      Ok (data, labels, Some sample_weight)
    else
      Err (BalancingMethodNotFoundError_new method balancing_methods)
  else Ok (data, labels, sample_weight).

End DecoderBase.

(** [method in balancing_methods], with the equality of [method_eqb]. *)
Definition in_allow_list (m : method_value) : bool :=
  existsb (method_eqb m) balancing_methods.

(** An exception that reports that ADASYN has nothing to generate: a
    [ValueError] whose first argument is the library's message. *)
Definition reports_no_samples (e : py_exception) : Prop :=
  In "ValueError" (exc_mro e) /\
  hd_error (exc_args e) = Some (AStr adasyn_no_samples_message).

(** ** decoder_factory.py *)

(** The scoring functions of the registry [scoring_methods]. *)
Inductive scoring_fn : Type := _get_balanced_accuracy | _get_log_loss.

(** [str.lower()] on ASCII text. *)
Definition lower_ascii (c : ascii) : ascii :=
  let n := nat_of_ascii c in
  if (65 <=? n)%nat && (n <=? 90)%nat then ascii_of_nat (n + 32) else c.

Fixpoint lower (s : string) : string :=
  match s with
  | EmptyString => EmptyString
  | String c s' => String (lower_ascii c) (lower s')
  end.

(** A dict with string keys, in insertion order. *)
Fixpoint dict_get {V} (d : list (string * V)) (k : string) : option V :=
  match d with
  | [] => None
  | (k', v) :: d' => if String.eqb k k' then Some v else dict_get d' k
  end.

Definition dict_keys {V} (d : list (string * V)) : pyobj :=
  DictKeys (map fst d).

(** [classifiers] and [scoring_methods] of [get_decoder]. *)
Definition classifiers : list (string * backend) :=
  [ ("catboost", CATB); ("dummy", Dummy); ("lda", LDA); ("lr", LR);
    ("qda", QDA); ("xgb", XGB) ].

Definition scoring_methods : list (string * scoring_fn) :=
  [ ("balanced_accuracy", _get_balanced_accuracy); ("log_loss", _get_log_loss) ].

(** [allowed.values]: attribute lookup on the object passed as [allowed]. *)
Definition getattr_values (allowed : pyobj) : result py_exception pyobj :=
  match allowed with
  | Dict ks => Ok (DictValuesMethod ks)
  | DictKeys _ =>
      Err (AttributeError "'dict_keys' object has no attribute 'values'")
  | DictValuesMethod _ =>
      Err (AttributeError
             "'builtin_function_or_method' object has no attribute 'values'")
  end.

(** [ScoringMethodNotFoundError.__init__]: [self.allowed = allowed]. *)
Definition ScoringMethodNotFoundError_new (input_value : string)
    (allowed : pyobj) : result py_exception exn :=
  Ok (ScoringMethodNotFoundError input_value allowed
        "Input scoring method is not an allowed value.").

(** [DecoderNotFoundError.__init__]: [self.allowed = allowed.values]. *)
Definition DecoderNotFoundError_new (input_value : string)
    (allowed : pyobj) : result py_exception exn :=
  allowed_values <- getattr_values allowed ;;
  Ok (DecoderNotFoundError input_value allowed_values
        "Input decoding model is not an allowed value.").

(** [raise Cls(args)]: the exception object is built first; a failure
    while building it is what propagates. *)
Definition raise_new {A} (built : result py_exception exn) : result exn A :=
  match built with
  | Ok e => Err e
  | Err e => Err (Raised e)
  end.

(** The methods each backend class defines in its own body. *)
Definition defined_methods (cls : backend) : list string :=
  match cls with
  | CATB => ["fit_and_predict"; "_bayesian_optimization"; "_bo_tune"]
  | LDA => ["__post_init__"; "fit"; "predict"; "save_model"]
  | LR => ["fit_and_predict"; "_bayesian_optimization"; "_bo_tune"]
  | Dummy => ["fit_and_predict"; "get_score"]
  | QDA => ["__post_init__"; "fit_and_predict"]
  | XGB => ["fit_and_predict"; "_bayesian_optimization"; "_bo_tune"]
  end.

(** The [@abstractmethod]s of [Decoder(ABC)]. *)
Definition Decoder_abstract_methods : list string := ["fit"; "save_model"].

(** [cls.__abstractmethods__]: the abstract methods [cls] inherits from
    [Decoder] without overriding them. *)
Definition abstractmethods (cls : backend) : list string :=
  filter (fun m => negb (existsb (String.eqb m) (defined_methods cls)))
         Decoder_abstract_methods.

Definition class_name (cls : backend) : string :=
  match cls with
  | CATB => "CATB" | Dummy => "Dummy" | LDA => "LDA"
  | LR => "LR" | QDA => "QDA" | XGB => "XGB"
  end.

Section DecoderFactory.
Context {Feature Params Model : Type} `{Capabilities Feature Params Model}.

(** [self.model]: the estimator as constructed, or after [fit]. *)
Inductive model_handle : Type :=
| Unfitted (e : estimator Params)
| Fitted (e : estimator Params) (m : Model).

(** The dataclass [Decoder]; the [field(init=False)] attributes are
    unset until a fit assigns them. *)
Record Decoder : Type := mk_Decoder {
  cls : backend;
  scoring : scoring_fn;
  balancing : method_value;
  optimize : bool;
  model : option model_handle;
  data_train : option (@dataframe Feature);
  labels_train : option label_array;
  groups_train : option (list Z)
}.

(** [LDA.__post_init__] *)
Definition LDA_post_init (self : Decoder) : result exn unit :=
  if method_eq_str (balancing self) "balance_weights" then
    Err (Raised (ValueError
      ("Sample weights cannot be balanced for Linear "
       ++ "Discriminant Analysis. Please set `balance_weights` to"
       ++ "either `oversample`, `undersample` or `None`.")))
  else if optimize self then
    Err (Raised (ValueError
      ("Hyperparameter optimization cannot be performed for this"
       ++ " implementation of Linear Discriminant Analysis. Please"
       ++ " set `optimize` to False.")))
  else Ok tt.

(** [QDA.__post_init__] *)
Definition QDA_post_init (self : Decoder) : result exn unit :=
  if method_eq_str (balancing self) "balance_weights" then
    Err (Raised (ValueError
      ("Sample weights cannot be balanced for Quadratic "
       ++ "Discriminant Analysis. Please set `balance_weights` to"
       ++ "either `oversample`, `undersample` or `None`.")))
  else if optimize self then
    Err (Raised (ValueError
      ("Hyperparameter optimization cannot be performed for this"
       ++ " implementation of Quadratic Discriminant Analysis. Please"
       ++ " set `optimize` to False.")))
  else Ok tt.

Definition post_init (self : Decoder) : result exn unit :=
  match cls self with
  | LDA => LDA_post_init self
  | QDA => QDA_post_init self
  | _ => Ok tt
  end.

(** [cls(scoring=..., balancing=..., optimize=...)]: [object.__new__]
    refuses a class that still has abstract methods; otherwise the
    generated [__init__] stores the three fields and calls
    [__post_init__]. *)
Definition construct (c : backend) (scoring : scoring_fn)
    (balancing : method_value) (optimize : bool) : result exn Decoder :=
  match abstractmethods c with
  | [] =>
      let self :=
        mk_Decoder c scoring balancing optimize None None None None in
      _ <- post_init self ;;
      Ok self
  | ms =>
      Err (Raised (TypeError
        ("Can't instantiate abstract class " ++ class_name c
         ++ " with abstract methods " ++ String.concat ", " ms)))
  end.

(** [get_decoder] *)
Definition get_decoder (classifier scoring : string)
    (balancing : method_value) (optimize : bool) : result exn Decoder :=
  let classifier := lower classifier in
  let balancing :=
    match balancing with
    | MStr s => MStr (lower s)
    | _ => balancing
    end in
  let scoring := lower scoring in
  match dict_get classifiers classifier with
  | None =>
      raise_new (DecoderNotFoundError_new classifier (dict_keys classifiers))
  | Some c =>
      match dict_get scoring_methods scoring with
      | None =>
          raise_new (ScoringMethodNotFoundError_new scoring
                       (dict_keys scoring_methods))
      | Some score => construct c score balancing optimize
      end
  end.

(** The statement that builds [self.model] in the boosting backends:
    [self._bayesian_optimization()] when [self.optimize], else the
    estimator with its defaults. *)
Definition build_model (c : backend)
    (mk : option Params -> estimator Params) (self : Decoder)
    (data : dataframe) (labels : label_array) (groups : list Z)
  : result exn (estimator Params) :=
  if optimize self then
    params <- lift (bayes_opt_max c data labels groups (balancing self)) ;;
    Ok (mk (Some params))
  else Ok (mk None).

(** [CATB.fit_and_predict]: the decoder after the call and the
    predictions. *)
Definition CATB_fit_and_predict (self : Decoder) (data_train : dataframe)
    (data_test : dataframe) (labels : label_array) (groups : list Z)
  : result exn (Decoder * list Z) :=
  let self_data_train := data_train in
  let self_labels_train := labels in
  let self_groups_train := groups in
  est <- build_model CATB CatBoostClassifier self
           self_data_train self_labels_train self_groups_train ;;
  '(self_data_train, self_labels_train, eval_set) <-
     _get_validation_split self_data_train self_labels_train
       self_groups_train (8 # 10) ;;
  '(self_data_train, self_labels_train, sample_weight) <-
     _balance_samples self_data_train self_labels_train (balancing self) ;;
  fitted <- lift (model_fit est
              (mk_fit_call self_data_train self_labels_train eval_set 25
                 sample_weight)) ;;
  predictions <- lift (model_predict fitted data_test) ;;
  Ok (mk_Decoder (cls self) (scoring self) (balancing self) (optimize self)
        (Some (Fitted est fitted)) (Some self_data_train)
        (Some self_labels_train) (Some self_groups_train),
      predictions).

(** [XGB.fit_and_predict] *)
Definition XGB_fit_and_predict (self : Decoder) (data_train : dataframe)
    (data_test : dataframe) (labels : label_array) (groups : list Z)
  : result exn (Decoder * list Z) :=
  let self_data_train := data_train in
  let self_labels_train := labels in
  let self_groups_train := groups in
  est <- build_model XGB XGBClassifier self
           self_data_train self_labels_train self_groups_train ;;
  '(self_data_train, self_labels_train, eval_set) <-
     _get_validation_split self_data_train self_labels_train
       self_groups_train (8 # 10) ;;
  '(self_data_train, self_labels_train, sample_weight) <-
     _balance_samples data_train labels (balancing self) ;;
  fitted <- lift (model_fit est
              (mk_fit_call self_data_train self_labels_train eval_set 20
                 sample_weight)) ;;
  predictions <- lift (model_predict fitted data_test) ;;
  Ok (mk_Decoder (cls self) (scoring self) (balancing self) (optimize self)
        (Some (Fitted est fitted)) (Some self_data_train)
        (Some self_labels_train) (Some self_groups_train),
      predictions).

End DecoderFactory.

(** ** A concrete set of capabilities

    Small deterministic stand-ins, used to run the definitions above on
    explicit datasets. *)

Module Demo.

Fixpoint distinct (gs : list Z) : list Z :=
  match gs with
  | [] => []
  | g :: gs' => g :: filter (fun g' => negb (Z.eqb g g')) (distinct gs')
  end.

Definition memZ (g : Z) (gs : list Z) : bool := existsb (Z.eqb g) gs.

(** Positions of the rows whose group satisfies [keep]. *)
Fixpoint rows_where (keep : Z -> bool) (i : nat) (groups : list Z)
  : list nat :=
  match groups with
  | [] => []
  | g :: groups' =>
      if keep g then i :: rows_where keep (S i) groups'
      else rows_where keep (S i) groups'
  end.

(** One partition a grouped shuffle split can draw: of the [k] distinct
    group ids, the first [floor (t * k)] (in order of appearance) train
    and the others validate; an empty training side is an error. *)
Definition split_next (t : Q) (data : list (list Z)) (labels : label_array)
    (groups : list Z) : result py_exception (list nat * list nat) :=
  let ids := distinct groups in
  let n_groups := Z.of_nat (List.length ids) in
  let n_train := Z.to_nat (Qfloor (t * inject_Z n_groups)) in
  if (n_train =? 0)%nat then
    Err (ValueError "the resulting train set will be empty")
  else
    let train_ids := firstn n_train ids in
    Ok (rows_where (fun g => memZ g train_ids) 0 groups,
        rows_where (fun g => negb (memZ g train_ids)) 0 groups).

Definition count (c : Z) (v : list Z) : nat :=
  List.length (filter (Z.eqb c) v).

(** Balanced class weights: [n_samples / (n_classes * count(class))]. *)
Definition balanced_weights (labels : label_array)
  : result py_exception (list Q) :=
  let v := ravel labels in
  let n := Z.of_nat (List.length v) in
  let k := Z.of_nat (List.length (distinct v)) in
  Ok (map (fun c => inject_Z n / inject_Z (k * Z.of_nat (count c v)))%Q v).

(** Two failures of ADASYN: on more than five rows, that no synthetic
    sample is to be generated; on fewer, that the rows are too few for its
    neighbours.  The other resamplers are not available. *)
Definition resample (s : sampler) (data : list (list Z))
    (labels : label_array)
  : result py_exception (list (list Z) * label_array) :=
  match s with
  | ADASYN n_neighbors =>
      if (n_neighbors <? List.length data)%nat then
        Err (ValueError
               "No samples will be generated with the provided ratio settings.")
      else Err (ValueError "Expected n_neighbors <= n_samples_fit")
  | _ =>
      Err (mk_exception ["RuntimeError"; "Exception"; "BaseException"]
             [AStr "resampler not available"])
  end.

(** A fitted model is the call that fitted it; it predicts class 0. *)
#[global] Instance caps : Capabilities Z unit (fit_call Z) := {
  fit_resample := resample;
  compute_sample_weight := balanced_weights;
  group_shuffle_split_next := split_next;
  bayes_opt_max := fun _ _ _ _ _ => Ok tt;
  model_fit := fun _ call => Ok call;
  model_predict := fun _ data_test => Ok (map (fun _ => 0%Z) data_test)
}.

(** Ten trials in five sessions, labels as a column of shape (10, 1). *)
Definition X10 : list (list Z) :=
  [[10]; [11]; [20]; [21]; [30]; [31]; [40]; [41]; [50]; [51]]%Z.
Definition y10 : label_array :=
  Labels2D [[0]; [1]; [0]; [1]; [0]; [1]; [0]; [1]; [0]; [1]]%Z.
Definition y10_series : label_array :=
  Labels1D [0; 1; 0; 1; 0; 1; 0; 1; 0; 1]%Z.
Definition g10 : list Z := [1; 1; 2; 2; 3; 3; 4; 4; 5; 5]%Z.

(** The same trials with four of class 1 and six of class 0. *)
Definition y10_skewed : label_array :=
  Labels1D [0; 1; 0; 1; 0; 1; 0; 1; 0; 0]%Z.

(** Three trials, one of class 1: label mean 1/3. *)
Definition X3 : list (list Z) := [[1]; [2]; [3]]%Z.
Definition y3 : label_array := Labels1D [1; 0; 0]%Z.

(** Two trials, one of each class: label mean 1/2. *)
Definition X2 : list (list Z) := [[1]; [2]]%Z.
Definition y2 : label_array := Labels1D [0; 1]%Z.

Definition xgb0 : @Decoder Z unit (fit_call Z) :=
  mk_Decoder XGB _get_log_loss (MStr "oversample") false None None None None.
Definition catb0 : @Decoder Z unit (fit_call Z) :=
  mk_Decoder CATB _get_log_loss (MStr "oversample") false None None None None.

(** The partition [split_next] draws from [X10], [y10], [g10] at 0.8:
    sessions 1 to 4 train, session 5 validates. *)
Definition X10_train : list (list Z) :=
  [[10]; [11]; [20]; [21]; [30]; [31]; [40]; [41]]%Z.
Definition y10_train : label_array :=
  Labels2D [[0]; [1]; [0]; [1]; [0]; [1]; [0]; [1]]%Z.
Definition eval10 : list (list (list Z) * label_array) :=
  [([[50]; [51]]%Z, Labels2D [[0]; [1]]%Z)].

End Demo.

(** ** The rest of the decoder surface *)

(** What the delegating methods and the scoring functions call: the
    model's [predict] on an estimator that was never fitted,
    [predict_proba], and the two metrics of scikit-learn. *)
Class Metrics (Feature Params Model Proba Score : Type) : Type := {
  predict_unfitted :
    estimator Params -> list (list Feature) -> result py_exception (list Z);
  predict_proba_unfitted :
    estimator Params -> list (list Feature) -> result py_exception Proba;
  model_predict_proba :
    Model -> list (list Feature) -> result py_exception Proba;
  balanced_accuracy_score :
    label_array -> list Z -> result py_exception Score;
  log_loss : label_array -> Proba -> result py_exception Score
}.

(** The estimators of the four backends that fit in one shot. *)
Inductive plain_estimator (Params : Type) : Type :=
| LinearDiscriminantAnalysis (solver shrinkage : string)
| LogisticRegression (solver : string) (tuned : option Params)
| DummyClassifier (strategy : string)
| QuadraticDiscriminantAnalysis.
Arguments LinearDiscriminantAnalysis {Params} solver shrinkage.
Arguments LogisticRegression {Params} solver tuned.
Arguments DummyClassifier {Params} strategy.
Arguments QuadraticDiscriminantAnalysis {Params}.

(** [model.fit(data, labels)] of those estimators (no sample weights are
    passed), and the optimizer run of [LR._bayesian_optimization]. *)
Class PlainCapabilities (Feature Params Model : Type) : Type := {
  plain_fit :
    plain_estimator Params -> list (list Feature) -> label_array ->
    result py_exception Model;
  lr_bayes_opt_max :
    list (list Feature) -> label_array -> list Z -> method_value ->
    result py_exception Params
}.

Section DecoderSurface.
Context {Feature Params Model Proba Score : Type}
        `{Capabilities Feature Params Model}
        `{Metrics Feature Params Model Proba Score}
        `{PlainCapabilities Feature Params Model}.

(** Reading [self.model] while the attribute is still unset. *)
Definition no_model_attribute (c : backend) : py_exception :=
  AttributeError ("'" ++ class_name c ++ "' object has no attribute 'model'").

(** [Decoder.predict] *)
Definition Decoder_predict (self : @Decoder Feature Params Model) (data : (@dataframe Feature))
  : result exn (list Z) :=
  match model self with
  | None => Err (Raised (no_model_attribute (cls self)))
  | Some (Unfitted e) => lift (predict_unfitted e data)
  | Some (Fitted _ m) => lift (model_predict m data)
  end.

(** [Decoder.predict_proba] *)
Definition Decoder_predict_proba (self : @Decoder Feature Params Model) (data : (@dataframe Feature))
  : result exn Proba :=
  match model self with
  | None => Err (Raised (no_model_attribute (cls self)))
  | Some (Unfitted e) => lift (predict_proba_unfitted e data)
  | Some (Fitted _ m) => lift (model_predict_proba m data)
  end.

(** [self.scoring(self.model, data_test, label_test)] for the two
    functions of the registry: [_get_balanced_accuracy] scores
    [model.predict(data_test)], [_get_log_loss] scores
    [model.predict_proba(data_test)]. *)
Definition apply_scoring (f : scoring_fn) (h : @model_handle Params Model)
    (data_test : (@dataframe Feature)) (label_test : label_array) : result exn Score :=
  match f with
  | _get_balanced_accuracy =>
      predictions <-
        lift (match h with
              | Unfitted e => predict_unfitted e data_test
              | Fitted _ m => model_predict m data_test
              end) ;;
      lift (balanced_accuracy_score label_test predictions)
  | _get_log_loss =>
      proba <-
        lift (match h with
              | Unfitted e => predict_proba_unfitted e data_test
              | Fitted _ m => model_predict_proba m data_test
              end) ;;
      lift (log_loss label_test proba)
  end.

(** [Decoder.get_score] *)
Definition Decoder_get_score (self : @Decoder Feature Params Model) (data_test : (@dataframe Feature))
    (label_test : label_array) : result exn Score :=
  match model self with
  | None => Err (Raised (no_model_attribute (cls self)))
  | Some h => apply_scoring (scoring self) h data_test label_test
  end.

(** The dataclass [Decoder] as the four one-shot backends use it: the
    same fields, with a fitted estimator of theirs as [model]. *)
Record PlainDecoder : Type := mk_PlainDecoder {
  p_cls : backend;
  p_scoring : scoring_fn;
  p_balancing : method_value;
  p_optimize : bool;
  p_model : option (plain_estimator Params * Model);
  p_data_train : option (@dataframe Feature);
  p_labels_train : option label_array;
  p_groups_train : option (list Z)
}.

(** [LDA.fit]: [groups] is not used. *)
Definition LDA_fit (self : PlainDecoder) (data_train : (@dataframe Feature))
    (labels : label_array) (groups : list Z) : result exn PlainDecoder :=
  '(self_data_train, self_labels_train, _) <-
     _balance_samples data_train labels (p_balancing self) ;;
  let est := LinearDiscriminantAnalysis "lsqr" "auto" in
  fitted <- lift (plain_fit est self_data_train self_labels_train) ;;
  Ok (mk_PlainDecoder (p_cls self) (p_scoring self) (p_balancing self)
        (p_optimize self) (Some (est, fitted)) (Some self_data_train)
        (Some self_labels_train) (p_groups_train self)).

(** [Decoder.predict] as [LR], [Dummy] and [QDA] inherit it. *)
Definition PlainDecoder_predict (self : PlainDecoder)
    (data : (@dataframe Feature)) : result exn (list Z) :=
  match p_model self with
  | None => Err (Raised (no_model_attribute (p_cls self)))
  | Some (_, m) => lift (model_predict m data)
  end.

(** [LDA.predict], which overrides it with the same body. *)
Definition LDA_predict (self : PlainDecoder) (data : (@dataframe Feature))
  : result exn (list Z) :=
  match p_model self with
  | None => Err (Raised (no_model_attribute (p_cls self)))
  | Some (_, m) => lift (model_predict m data)
  end.

(** [LR.fit_and_predict] *)
Definition LR_fit_and_predict (self : PlainDecoder) (data_train : (@dataframe Feature))
    (data_test : (@dataframe Feature)) (labels : label_array) (groups : list Z)
  : result exn (PlainDecoder * list Z) :=
  est <- (if p_optimize self then
            params <- lift (lr_bayes_opt_max data_train labels groups
                              (p_balancing self)) ;;
            Ok (LogisticRegression "newton-cg" (Some params))
          else Ok (LogisticRegression "newton-cg" None)) ;;
  '(self_data_train, self_labels_train, _) <-
     _balance_samples data_train labels (p_balancing self) ;;
  fitted <- lift (plain_fit est self_data_train self_labels_train) ;;
  predictions <- lift (model_predict fitted data_test) ;;
  Ok (mk_PlainDecoder (p_cls self) (p_scoring self) (p_balancing self)
        (p_optimize self) (Some (est, fitted)) (Some self_data_train)
        (Some self_labels_train) (Some groups),
      predictions).

(** [Dummy.fit_and_predict]: [groups] is not used.  The uniform dummy
    draws its predictions anew at every call, so [model_predict] stands
    here for the one draw of this call. *)
Definition Dummy_fit_and_predict (self : PlainDecoder)
    (data_train : (@dataframe Feature)) (data_test : (@dataframe Feature)) (labels : label_array)
    (groups : list Z) : result exn (PlainDecoder * list Z) :=
  '(self_data_train, self_labels_train, _) <-
     _balance_samples data_train labels (p_balancing self) ;;
  let est := DummyClassifier "uniform" in
  fitted <- lift (plain_fit est self_data_train self_labels_train) ;;
  predictions <- lift (model_predict fitted data_test) ;;
  Ok (mk_PlainDecoder (p_cls self) (p_scoring self) (p_balancing self)
        (p_optimize self) (Some (est, fitted)) (Some self_data_train)
        (Some self_labels_train) (p_groups_train self),
      predictions).

(** [QDA.fit_and_predict]: the labels are its second parameter, the test
    data its third; [groups] is not used. *)
Definition QDA_fit_and_predict (self : PlainDecoder)
    (data_train : (@dataframe Feature)) (labels : label_array) (data_test : (@dataframe Feature))
    (groups : list Z) : result exn (PlainDecoder * list Z) :=
  '(self_data_train, self_labels_train, _) <-
     _balance_samples data_train labels (p_balancing self) ;;
  let est := QuadraticDiscriminantAnalysis in
  fitted <- lift (plain_fit est self_data_train self_labels_train) ;;
  predictions <- lift (model_predict fitted data_test) ;;
  Ok (mk_PlainDecoder (p_cls self) (p_scoring self) (p_balancing self)
        (p_optimize self) (Some (est, fitted)) (Some self_data_train)
        (Some self_labels_train) (p_groups_train self),
      predictions).

End DecoderSurface.

(** ** The tuning objective of the XGB backend *)

(** [labels[ind]] and [groups[ind]]: a selection of rows by position. *)
Definition labels_getitem (l : label_array) (ind : list nat)
  : result py_exception label_array :=
  match l with
  | Labels1D v =>
      rs <- take_rows (IndexError "index is out of bounds for axis 0") v ind ;;
      Ok (Labels1D rs)
  | Labels2D m =>
      rs <- take_rows (IndexError "index is out of bounds for axis 0") m ind ;;
      Ok (Labels2D rs)
  end.

Definition groups_getitem (g : list Z) (ind : list nat)
  : result py_exception (list Z) :=
  take_rows (IndexError "index is out of bounds for axis 0") g ind.

(** What [XGB._bo_tune] calls besides the balancer and the splitter:
    the folds of [GroupKFold(n_splits=3).split(...)], the fit of the
    inner model (100 trees) built from the candidate hyperparameters,
    [predict_proba], [log_loss(y_te, y_probs, labels=[0, 1])] and
    [-1.0 * np.mean(scores)]. *)
Class TuneCapabilities (Feature Params Model Proba Score : Type) : Type := {
  group_kfold_split :
    nat -> list (list Feature) -> label_array -> list Z ->
    result py_exception (list (list nat * list nat));
  inner_model_fit : Params -> fit_call Feature -> result py_exception Model;
  inner_predict_proba :
    Model -> list (list Feature) -> result py_exception Proba;
  log_loss_binary : label_array -> Proba -> result py_exception Score;
  neg_mean : list Score -> Score
}.

Section XGBTuning.
Context {Feature Params Model Proba Score : Type}
        `{Capabilities Feature Params Model}
        `{TuneCapabilities Feature Params Model Proba Score}.

(** One pass of the [for] loop of [XGB._bo_tune]: the score of a fold. *)
Definition XGB_bo_fold (balancing : method_value) (candidate : Params)
    (data : @dataframe Feature) (labels : label_array) (groups : list Z)
    (train_index test_index : list nat) : result exn Score :=
  data_train_ <- lift (iloc_rows data train_index) ;;
  data_test_ <- lift (iloc_rows data test_index) ;;
  y_tr <- lift (labels_getitem labels train_index) ;;
  y_te <- lift (labels_getitem labels test_index) ;;
  groups_tr <- lift (groups_getitem groups train_index) ;;
  '(data_train_, y_tr, eval_set_inner) <-
     _get_validation_split data_train_ y_tr groups_tr (8 # 10) ;;
  '(data_train_, y_tr, sample_weight) <-
     _balance_samples data_train_ y_tr balancing ;;
  inner_model <-
    lift (inner_model_fit candidate
            (mk_fit_call data_train_ y_tr eval_set_inner 20 sample_weight)) ;;
  y_probs <- lift (inner_predict_proba inner_model data_test_) ;;
  lift (log_loss_binary y_te y_probs).

(** The loop: the scores in the order of the folds; the first failure
    ends it. *)
Fixpoint XGB_bo_scores (balancing : method_value) (candidate : Params)
    (data : @dataframe Feature) (labels : label_array) (groups : list Z)
    (folds : list (list nat * list nat)) : result exn (list Score) :=
  match folds with
  | [] => Ok []
  | (train_index, test_index) :: folds' =>
      score <- XGB_bo_fold balancing candidate data labels groups
                 train_index test_index ;;
      scores <- XGB_bo_scores balancing candidate data labels groups folds' ;;
      Ok (score :: scores)
  end.

(** [XGB._bo_tune], on the training set the decoder holds. *)
Definition XGB_bo_tune (self : @Decoder Feature Params Model)
    (candidate : Params) : result exn Score :=
  match data_train self, labels_train self, groups_train self with
  | Some data, Some labels, Some groups =>
      folds <- lift (group_kfold_split 3 data labels groups) ;;
      scores <- XGB_bo_scores (balancing self) candidate data labels groups
                  folds ;;
      Ok (neg_mean scores)
  | None, _, _ =>
      Err (Raised (AttributeError
                     "'XGB' object has no attribute 'data_train'"))
  | _, None, _ =>
      Err (Raised (AttributeError
                     "'XGB' object has no attribute 'labels_train'"))
  | _, _, None =>
      Err (Raised (AttributeError
                     "'XGB' object has no attribute 'groups_train'"))
  end.

End XGBTuning.

(** ** The text of the configuration errors *)

(** [str(v)], which is what a replacement field of an f-string shows. *)
Definition py_str (v : method_value) : string :=
  match v with
  | MStr s => s
  | MBool true => "True"
  | MBool false => "False"
  | MNone => "None"
  end.

(** [repr(v)], which is what [str] of a list shows of its items; for a
    str without quotes, backslashes or control characters, as the names
    of the allow-lists are, it is the text between single quotes. *)
Definition py_repr (v : method_value) : string :=
  match v with
  | MStr s => "'" ++ s ++ "'"
  | _ => py_str v
  end.

Definition py_str_list (l : list method_value) : string :=
  "[" ++ String.concat ", " (map py_repr l) ++ "]".

(** [str(d.keys())] *)
Definition py_str_dict_keys (ks : list string) : string :=
  "dict_keys(" ++ py_str_list (map MStr ks) ++ ")".

(** [BalancingMethodNotFoundError.__str__]: both literals are f-strings,
    and the doubled braces around [self.message] stand for braces. *)
Definition BalancingMethodNotFoundError_str (input_value : method_value)
    (allowed : list method_value) : string :=
  "{self.message} Allowed values: " ++ py_str_list allowed ++ "."
  ++ " Got: " ++ py_str input_value ++ ".".

(** [ScoringMethodNotFoundError.__str__], for the [allowed] that
    [get_decoder] passes. *)
Definition ScoringMethodNotFoundError_str (input_value : string)
    (allowed_keys : list string) : string :=
  "{self.message} Allowed values: " ++ py_str_dict_keys allowed_keys
  ++ ". Got:" ++ " " ++ input_value ++ ".".

(** [str(e)] for the two error classes that can be raised. *)
Definition exn_str (e : exn) : option string :=
  match e with
  | BalancingMethodNotFoundError input_value allowed _ =>
      Some (BalancingMethodNotFoundError_str input_value allowed)
  | ScoringMethodNotFoundError input_value (DictKeys ks) _ =>
      Some (ScoringMethodNotFoundError_str input_value ks)
  | _ => None
  end.

(** Stand-ins for the rest of the surface, on the models of [Demo]:
    a one-shot fit records its data like the boosting fits, an estimator
    that was never fitted refuses to predict, and the metrics are the
    share of agreeing predictions and a constant. *)
Module DemoSurface.

Definition not_fitted : py_exception :=
  mk_exception ["NotFittedError"; "ValueError"; "AttributeError";
                "Exception"; "BaseException"]
    [AStr "This instance is not fitted yet."].

Fixpoint agreements (truth predictions : list Z) : nat :=
  match truth, predictions with
  | t :: truth', p :: predictions' =>
      (if Z.eqb t p then 1 else 0) + agreements truth' predictions'
  | _, _ => 0
  end.

Definition share_correct (label_test : label_array) (predictions : list Z)
  : result py_exception Q :=
  match ravel label_test with
  | [] => Err (ValueError "empty")
  | t :: truth =>
      Ok (inject_Z (Z.of_nat (agreements (t :: truth) predictions))
          / inject_Z (Z.of_nat (List.length (t :: truth))))%Q
  end.

#[global] Instance metrics : Metrics Z unit (fit_call Z) (list (list Q)) Q := {
  predict_unfitted := fun _ _ => Err not_fitted;
  predict_proba_unfitted := fun _ _ => Err not_fitted;
  model_predict_proba :=
    fun _ data_test => Ok (map (fun _ => [1; 0]%Q) data_test);
  balanced_accuracy_score := share_correct;
  log_loss := fun _ _ => Ok 0%Q
}.

#[global] Instance plain : PlainCapabilities Z unit (fit_call Z) := {
  plain_fit := fun _ data labels => Ok (mk_fit_call data labels [] 0 None);
  lr_bayes_opt_max := fun _ _ _ _ => Ok tt
}.

Definition lda0 : @PlainDecoder Z unit (fit_call Z) :=
  mk_PlainDecoder LDA _get_balanced_accuracy (MStr "weight") false
    None None None None.

Definition lr0 : @PlainDecoder Z unit (fit_call Z) :=
  mk_PlainDecoder LR _get_balanced_accuracy (MStr "weight") false
    None None None None.

(** Group ids taken in turn: those at the positions congruent to [k]. *)
Fixpoint pick (k n i : nat) (ids : list Z) : list Z :=
  match ids with
  | [] => []
  | id :: ids' =>
      if (i mod n =? k)%nat then id :: pick k n (S i) ids'
      else pick k n (S i) ids'
  end.

(** One grouped k-fold: fold [k] tests the groups [pick k n 0]; fewer
    groups than folds is an error. *)
Definition kfold (n : nat) (data : list (list Z)) (labels : label_array)
    (groups : list Z) : result py_exception (list (list nat * list nat)) :=
  let ids := Demo.distinct groups in
  if (List.length ids <? n)%nat then
    Err (ValueError
           "Cannot have number of splits greater than the number of groups")
  else
    Ok (map (fun k =>
               let test_ids := pick k n 0 ids in
               (Demo.rows_where (fun g => negb (Demo.memZ g test_ids)) 0 groups,
                Demo.rows_where (fun g => Demo.memZ g test_ids) 0 groups))
            (seq 0 n)).

#[global] Instance tune
  : TuneCapabilities Z unit (fit_call Z) (list (list Q)) Q := {
  group_kfold_split := kfold;
  inner_model_fit := fun _ call => Ok call;
  inner_predict_proba :=
    fun _ data_test => Ok (map (fun _ => [1; 0]%Q) data_test);
  log_loss_binary := fun _ _ => Ok 0%Q;
  neg_mean := fun scores => 0%Q
}.

(** An XGB decoder holding the ten trials, as [fit_and_predict] stores
    them before it tunes; the labels as a column and as a vector. *)
Definition xgb_holding (labels : label_array)
  : @Decoder Z unit (fit_call Z) :=
  mk_Decoder XGB _get_log_loss (MStr "oversample") true None
    (Some Demo.X10) (Some labels) (Some Demo.g10).

End DemoSurface.

(** ** Notions used in the statements *)

(** What a [pd.Series] raises on a selection with two indices. *)
Definition KeyError (msg : string) : py_exception :=
  mk_exception ["KeyError"; "LookupError"; "Exception"; "BaseException"]
    [AStr msg].

(** [isinstance(e, LookupError)]: an [IndexError] or a [KeyError]. *)
Definition is_lookup_error (e : py_exception) : bool :=
  isinstance e "LookupError".


(** The resampler each resampling method name stands for, [adasyn] (whose
    failures are filtered) apart. *)
Definition plain_resampler (name : string) : option sampler :=
  if String.eqb name "oversample" then Some RandomOverSampler
  else if String.eqb name "smote" then Some (SMOTE 5)
  else if String.eqb name "borderline_smote" then
    Some (BorderlineSMOTE 5 "borderline-1")
  else if String.eqb name "undersample" then Some RandomUnderSampler
  else None.

(** [labels.shape[0]] *)
Definition n_rows (l : label_array) : nat :=
  match l with
  | Labels1D v => List.length v
  | Labels2D m => List.length m
  end.

(** [balancing.lower() if isinstance(balancing, str) else balancing] *)
Definition lower_balancing (balancing : method_value) : method_value :=
  match balancing with
  | MStr s => MStr (lower s)
  | _ => balancing
  end.

Section FittedStates.
Context {Feature Params Model : Type}
        `{Capabilities Feature Params Model}
        `{PlainCapabilities Feature Params Model}.

(** The state a boosting [fit_and_predict] leaves behind. *)
Definition fitted_state (self self' : @Decoder Feature Params Model)
    (groups : list Z) (rounds : nat) : Prop :=
  cls self' = cls self /\ scoring self' = scoring self /\
  balancing self' = balancing self /\ optimize self' = optimize self /\
  groups_train self' = Some groups /\
  exists est call fitted,
    model_fit est call = Ok fitted /\
    model self' = Some (Fitted est fitted) /\
    data_train self' = Some (fit_data call) /\
    labels_train self' = Some (fit_labels call) /\
    fit_early_stopping_rounds call = rounds.

(** [self'] is [self] with a model of estimator [est] fitted, without
    sample weights, on [data] and [labels], which it stores. *)
Definition fitted_plainly (self self' : @PlainDecoder Feature Params Model)
    (est : plain_estimator Params) (data : @dataframe Feature)
    (labels : label_array) : Prop :=
  p_cls self' = p_cls self /\ p_scoring self' = p_scoring self /\
  p_balancing self' = p_balancing self /\
  p_optimize self' = p_optimize self /\
  exists fitted,
    plain_fit est data labels = Ok fitted /\
    p_model self' = Some (est, fitted) /\
    p_data_train self' = Some data /\
    p_labels_train self' = Some labels.

End FittedStates.

(** The decoder [XGB.fit_and_predict] leaves on the ten trials. *)
Definition xgb10 : @Decoder Z unit (fit_call Z) :=
  mk_Decoder XGB _get_log_loss (MStr "oversample") false
    (Some (Fitted (XGBClassifier None)
             (mk_fit_call Demo.X10 Demo.y10 Demo.eval10 20 None)))
    (Some Demo.X10) (Some Demo.y10) (Some Demo.g10).

(** The decoder [LDA.fit] leaves on three trials with balancing
    ["weight"], and the one [LR.fit_and_predict] leaves. *)
Definition lda3 : @PlainDecoder Z unit (fit_call Z) :=
  mk_PlainDecoder LDA _get_balanced_accuracy (MStr "weight") false
    (Some (LinearDiscriminantAnalysis "lsqr" "auto",
           mk_fit_call Demo.X3 Demo.y3 [] 0 None))
    (Some Demo.X3) (Some Demo.y3) None.

Definition lr3 : @PlainDecoder Z unit (fit_call Z) :=
  mk_PlainDecoder LR _get_balanced_accuracy (MStr "weight") false
    (Some (LogisticRegression "newton-cg" None,
           mk_fit_call Demo.X3 Demo.y3 [] 0 None))
    (Some Demo.X3) (Some Demo.y3) (Some [1; 1; 2]%Z).

(** * Properties *)

(** ** The balancer *)

Section BalancerProperties.
Context {Feature Params Model : Type} `{Capabilities Feature Params Model}.

Lemma mean_ne_half_false (labels : label_array) (q : Q) :
  np_mean labels = Some q -> (q == 1 # 2)%Q -> mean_ne labels (1 # 2) = false.
Proof.
  intros Hm Hq. unfold mean_ne. rewrite Hm.
  apply Qeq_bool_iff in Hq. now rewrite Hq.
Qed.

Lemma balance_skip (data : dataframe) (labels : label_array)
    (method : method_value) :
  mean_ne labels (1 # 2) = false ->
  _balance_samples data labels method = Ok (data, labels, None).
Proof.
  intros Hm. unfold _balance_samples. now rewrite Hm.
Qed.

(** When no branch of the [if]/[elif] chain matches, the [else] raises. *)
Lemma balance_else (data : dataframe) (labels : label_array)
    (method : method_value) :
  mean_ne labels (1 # 2) = true ->
  method_eq_str method "oversample" = false ->
  method_eq_str method "smote" = false ->
  method_eq_str method "borderline_smote" = false ->
  method_eq_str method "adasyn" = false ->
  method_eq_str method "undersample" = false ->
  method_eq_str method "weight" = false ->
  _balance_samples data labels method =
    Err (BalancingMethodNotFoundError_new method balancing_methods).
Proof.
  intros Hm H1 H2 H3 H4 H5 H6. unfold _balance_samples.
  now rewrite Hm, H1, H2, H3, H4, H5, H6.
Qed.

Lemma isinstance_In (e : py_exception) (cls : string) :
  isinstance e cls = true <-> In cls (exc_mro e).
Proof.
  unfold isinstance. rewrite existsb_exists. split.
  - intros [x [Hin Heq]]. apply String.eqb_eq in Heq. now subst.
  - intros Hin. exists cls. split; [assumption | apply String.eqb_refl].
Qed.

(** The handler of [adasyn_try] swallows exactly the exceptions of
    [reports_no_samples]. *)
Lemma adasyn_try_err (data : dataframe) (labels : label_array)
    (e : py_exception) :
  fit_resample (ADASYN 5) data labels = Err e ->
  (reports_no_samples e -> adasyn_try data labels = Ok (data, labels)) /\
  (~ reports_no_samples e -> adasyn_try data labels = Err (Raised e)).
Proof.
  intros He. unfold adasyn_try, reports_no_samples. rewrite He.
  destruct (isinstance e "ValueError") eqn:Hi.
  - apply isinstance_In in Hi.
    destruct (exc_args e) as [| a args] eqn:Ha; simpl.
    + split; [intros [_ Hhd]; discriminate | reflexivity].
    + destruct a as [s |]; simpl.
      * destruct (String.eqb s adasyn_no_samples_message) eqn:Hs.
        -- split; [reflexivity |].
           intros Hn. exfalso. apply Hn. split; [assumption |].
           apply String.eqb_eq in Hs. now subst.
        -- split; [| reflexivity].
           intros [_ Hhd]. injection Hhd as Hhd. subst.
           now rewrite String.eqb_refl in Hs.
      * split; [intros [_ Hhd]; discriminate | reflexivity].
  - split; [| reflexivity].
    intros [Hin _]. apply isinstance_In in Hin. congruence.
Qed.

(** The allow-list names [True] and [False] and the disused
    ["balance_weights"]; it names neither [None] nor the ["weight"] the
    code tests for. *)
Example allow_list_membership :
  in_allow_list (MBool true) = true /\
  in_allow_list (MBool false) = true /\
  in_allow_list (MStr "balance_weights") = true /\
  in_allow_list MNone = false /\
  in_allow_list (MStr "weight") = false.
Proof. repeat split. Qed.

(** C5. When the label mean is exactly 0.5, [_balance_samples] returns the
    data and the labels it was given and [None] as sample weight, for
    every method value, and raises nothing. *)
Theorem balance_samples_noop_at_mean_half (data : dataframe)
    (labels : label_array) (method : method_value) (q : Q) :
  np_mean labels = Some q -> (q == 1 # 2)%Q ->
  _balance_samples data labels method = Ok (data, labels, None).
Proof.
  intros Hm Hq. apply balance_skip. now apply mean_ne_half_false with q.
Qed.

(** C4, amended. When the label mean is not 0.5, every method value that
    is outside the allow-list and is not ["weight"] raises
    [BalancingMethodNotFoundError] carrying that value and the
    allow-list. *)
Theorem unknown_method_raises (data : dataframe) (labels : label_array)
    (method : method_value) :
  mean_ne labels (1 # 2) = true ->
  in_allow_list method = false ->
  method_eq_str method "weight" = false ->
  _balance_samples data labels method =
    Err (BalancingMethodNotFoundError method balancing_methods
           "Input balancing method is not an allowed value.").
Proof.
  intros Hm Hout Hw.
  unfold in_allow_list, balancing_methods in Hout. simpl in Hout.
  repeat (apply orb_false_iff in Hout; destruct Hout as [? Hout]).
  apply balance_else; try assumption;
    destruct method; simpl in *; try reflexivity; assumption.
Qed.

(** C1. With a label mean other than 0.5, the method ["balance_weights"],
    which the allow-list names, reaches the [else] branch: the call raises
    [BalancingMethodNotFoundError] and computes no sample weights. *)
Theorem balance_weights_raises (data : dataframe) (labels : label_array) :
  mean_ne labels (1 # 2) = true ->
  in_allow_list (MStr "balance_weights") = true /\
  _balance_samples data labels (MStr "balance_weights") =
    Err (BalancingMethodNotFoundError (MStr "balance_weights")
           balancing_methods
           "Input balancing method is not an allowed value.").
Proof.
  intros Hm. split; [reflexivity |].
  now apply balance_else.
Qed.

(** C6. With a label mean other than 0.5, each of [True], [False] and
    [None] as method reaches the [else] branch and raises
    [BalancingMethodNotFoundError]; nothing is resampled and nothing is
    returned. *)
Theorem true_false_none_raise (data : dataframe) (labels : label_array)
    (method : method_value) :
  mean_ne labels (1 # 2) = true ->
  method = MBool true \/ method = MBool false \/ method = MNone ->
  _balance_samples data labels method =
    Err (BalancingMethodNotFoundError method balancing_methods
           "Input balancing method is not an allowed value.").
Proof.
  intros Hm [-> | [-> | ->]]; now apply balance_else.
Qed.

(** C8. With method ["adasyn"] and a label mean other than 0.5 (so that
    the resampler is called): if the resampler fails reporting that no
    samples will be generated, the data and labels given come back
    unchanged with no sample weight; any other failure of the resampler
    is the failure of [_balance_samples]. *)
Theorem adasyn_failure_handling (data : dataframe) (labels : label_array)
    (e : py_exception) :
  mean_ne labels (1 # 2) = true ->
  fit_resample (ADASYN 5) data labels = Err e ->
  (reports_no_samples e ->
   _balance_samples data labels (MStr "adasyn") = Ok (data, labels, None)) /\
  (~ reports_no_samples e ->
   _balance_samples data labels (MStr "adasyn") = Err (Raised e)).
Proof.
  intros Hm He.
  destruct (adasyn_try_err data labels e He) as [Hyes Hno].
  unfold _balance_samples. rewrite Hm. simpl.
  split; intros Hr.
  - now rewrite (Hyes Hr).
  - now rewrite (Hno Hr).
Qed.

End BalancerProperties.

(** The resampler stand-in fails in both ways the handler tells apart. *)
Example demo_adasyn_failures :
  Demo.resample (ADASYN 5) Demo.X10 Demo.y10_skewed =
    Err (ValueError adasyn_no_samples_message) /\
  Demo.resample (ADASYN 5) Demo.X3 Demo.y3 =
    Err (ValueError "Expected n_neighbors <= n_samples_fit").
Proof. split; reflexivity. Qed.

Lemma balance_samples_noop_at_mean_half_witness :
  np_mean Demo.y2 = Some (1 # 2) /\
  _balance_samples Demo.X2 Demo.y2 (MStr "adasyn") =
    Ok (Demo.X2, Demo.y2, None).
Proof.
  split; [reflexivity |].
  apply (balance_samples_noop_at_mean_half Demo.X2 Demo.y2 (MStr "adasyn")
           (1 # 2)); reflexivity.
Defined.

(** C4 as stated fails: on labels of mean 0.5 a method outside the
    allow-list is passed through and nothing is raised. *)
Lemma unknown_method_passes_at_mean_half :
  ~ (forall (data : list (list Z)) (labels : label_array)
       (method : method_value),
       in_allow_list method = false ->
       exists message,
         _balance_samples data labels method =
           Err (BalancingMethodNotFoundError method balancing_methods message)).
Proof.
  intros Hclaim.
  destruct (Hclaim Demo.X2 Demo.y2 (MStr "bogus") eq_refl) as [message Hm].
  discriminate Hm.
Qed.

Lemma unknown_method_raises_witness :
  mean_ne Demo.y3 (1 # 2) = true /\
  in_allow_list (MStr "bogus") = false /\
  _balance_samples Demo.X3 Demo.y3 (MStr "bogus") =
    Err (BalancingMethodNotFoundError (MStr "bogus") balancing_methods
           "Input balancing method is not an allowed value.").
Proof.
  split; [reflexivity |]. split; [reflexivity |].
  apply (unknown_method_raises Demo.X3 Demo.y3 (MStr "bogus")); reflexivity.
Defined.

Lemma balance_weights_raises_witness :
  mean_ne Demo.y3 (1 # 2) = true /\
  _balance_samples Demo.X3 Demo.y3 (MStr "balance_weights") =
    Err (BalancingMethodNotFoundError (MStr "balance_weights")
           balancing_methods
           "Input balancing method is not an allowed value.").
Proof.
  split; [reflexivity |].
  apply (balance_weights_raises Demo.X3 Demo.y3); reflexivity.
Defined.

Lemma true_false_none_raise_witness :
  mean_ne Demo.y3 (1 # 2) = true /\
  _balance_samples Demo.X3 Demo.y3 (MBool true) =
    Err (BalancingMethodNotFoundError (MBool true) balancing_methods
           "Input balancing method is not an allowed value.") /\
  _balance_samples Demo.X3 Demo.y3 MNone =
    Err (BalancingMethodNotFoundError MNone balancing_methods
           "Input balancing method is not an allowed value.").
Proof.
  split; [reflexivity |]. split.
  - apply (true_false_none_raise Demo.X3 Demo.y3 (MBool true));
      [reflexivity | left; reflexivity].
  - apply (true_false_none_raise Demo.X3 Demo.y3 MNone);
      [reflexivity | right; right; reflexivity].
Defined.

Lemma adasyn_failure_handling_witness :
  _balance_samples Demo.X10 Demo.y10_skewed (MStr "adasyn") =
    Ok (Demo.X10, Demo.y10_skewed, None) /\
  _balance_samples Demo.X3 Demo.y3 (MStr "adasyn") =
    Err (Raised (ValueError "Expected n_neighbors <= n_samples_fit")).
Proof.
  split.
  - apply (proj1 (adasyn_failure_handling (H := Demo.caps) Demo.X10 Demo.y10_skewed
                    (ValueError adasyn_no_samples_message)
                    eq_refl eq_refl)).
    split; [left; reflexivity | reflexivity].
  - apply (proj2 (adasyn_failure_handling (H := Demo.caps) Demo.X3 Demo.y3
                    (ValueError "Expected n_neighbors <= n_samples_fit")
                    eq_refl eq_refl)).
    intros [_ Hhd]. discriminate Hhd.
Defined.

(** ** The validation splitter *)

Section SplitterProperties.
Context {Feature Params Model : Type} `{Capabilities Feature Params Model}.

(** What a normal return of [_get_validation_split] was computed from. *)
Lemma validation_split_ok (data : dataframe) (labels : label_array)
    (groups : list Z) (train_size : Q) (data_train : dataframe)
    (labels_train : label_array) (eval_set : list (dataframe * label_array)) :
  _get_validation_split data labels groups train_size =
    Ok (data_train, labels_train, eval_set) ->
  exists train_ind val_ind data_val labels_val,
    group_shuffle_split_next train_size data labels groups =
      Ok (train_ind, val_ind) /\
    iloc_rows data train_ind = Ok data_train /\
    iloc_rows data val_ind = Ok data_val /\
    labels_getitem_2d labels train_ind = Ok labels_train /\
    labels_getitem_2d labels val_ind = Ok labels_val /\
    eval_set = [(data_val, labels_val)].
Proof.
  unfold _get_validation_split. intros Hok.
  destruct (group_shuffle_split_next train_size data labels groups)
    as [[train_ind val_ind] | e] eqn:Hs; simpl in Hok; [| discriminate].
  destruct (iloc_rows data train_ind) as [dtr | e] eqn:Ht; simpl in Hok;
    [| discriminate].
  destruct (iloc_rows data val_ind) as [dval | e] eqn:Hv; simpl in Hok;
    [| discriminate].
  destruct (labels_getitem_2d labels train_ind) as [ltr | e] eqn:Hlt;
    simpl in Hok; [| discriminate].
  destruct (labels_getitem_2d labels val_ind) as [lval | e] eqn:Hlv;
    simpl in Hok; [| discriminate].
  injection Hok as <- <- <-.
  exists train_ind, val_ind, dval, lval. repeat split; assumption || reflexivity.
Qed.

Lemma take_rows_err {A} (oob : py_exception) (rows : list A)
    (ind : list nat) (e : py_exception) :
  take_rows oob rows ind = Err e -> e = oob.
Proof.
  revert e. induction ind as [| i ind IH]; intros e; simpl.
  - discriminate.
  - destruct (nth_error rows i) as [r |].
    + destruct (take_rows oob rows ind) as [rs | e']; simpl.
      * discriminate.
      * intros Heq. injection Heq as <-. now apply IH.
    + intros Heq. now injection Heq as <-.
Qed.

(** C10, amended. With one-dimensional labels [_get_validation_split]
    never returns a split.  When the group splitter yields a partition the
    call raises a lookup error: the two-index selection
    [labels[train_ind, :]] raises an [IndexError] on an array and a
    [KeyError] on a [pd.Series], both of them [LookupError]s.  When the
    group splitter itself fails, its exception is the one the call
    raises.  A normal return needs labels that take two indices. *)
Theorem validation_split_needs_2d_labels (data : dataframe)
    (labels : label_array) (groups : list Z) (train_size : Q) :
  (forall v train_ind val_ind,
     labels = Labels1D v ->
     group_shuffle_split_next train_size data labels groups =
       Ok (train_ind, val_ind) ->
     exists e,
       _get_validation_split data labels groups train_size =
         Err (Raised e) /\
       is_lookup_error e = true) /\
  (forall v e,
     labels = Labels1D v ->
     group_shuffle_split_next train_size data labels groups = Err e ->
     _get_validation_split data labels groups train_size = Err (Raised e)) /\
  (forall r,
     _get_validation_split data labels groups train_size = Ok r ->
     exists m, labels = Labels2D m).
Proof.
  split; [| split].
  - intros v train_ind val_ind -> Hs.
    unfold _get_validation_split. rewrite Hs. simpl.
    destruct (iloc_rows data train_ind) as [dtr | e] eqn:Ht; simpl.
    + destruct (iloc_rows data val_ind) as [dval | e] eqn:Hv; simpl.
      * eexists. split; reflexivity.
      * apply take_rows_err in Hv. subst e.
        eexists. split; reflexivity.
    + apply take_rows_err in Ht. subst e.
      eexists. split; reflexivity.
  - intros v e -> Hs.
    unfold _get_validation_split. rewrite Hs. reflexivity.
  - intros [[dtr ltr] es] Hok.
    apply validation_split_ok in Hok.
    destruct Hok as (tr & va & dval & lval & _ & _ & _ & Hl & _).
    destruct labels as [v | m]; [discriminate Hl | now exists m].
Qed.

End SplitterProperties.

(** Both exceptions a two-index selection raises on a vector are lookup
    errors; the [ValueError] of a splitter is not. *)
Example lookup_errors :
  is_lookup_error (IndexError "too many indices for array") = true /\
  is_lookup_error
    (KeyError "key of type tuple not found and not a MultiIndex") = true /\
  is_lookup_error (ValueError "the resulting train set will be empty") =
    false.
Proof. repeat split. Qed.

(** C10 as stated fails: with a label vector and a single group the
    group splitter has no training side to give and raises its
    [ValueError], which is what leaves the call; no indexing is reached. *)
Lemma label_vector_call_raises_splitter_error :
  ~ (forall (data : list (list Z)) (v : list Z) (groups : list Z)
       (train_size : Q),
       exists e,
         _get_validation_split data (Labels1D v) groups train_size =
           Err (Raised e) /\
         is_lookup_error e = true).
Proof.
  intros Hclaim.
  destruct (Hclaim Demo.X3 [1; 0; 0]%Z [7; 7; 7]%Z (8 # 10)) as [e [He Hl]].
  assert (Hv : _get_validation_split Demo.X3 (Labels1D [1; 0; 0]%Z)
                 [7; 7; 7]%Z (8 # 10) =
               Err (Raised
                      (ValueError "the resulting train set will be empty")))
    by reflexivity.
  rewrite Hv in He. injection He as <-. discriminate Hl.
Qed.

Lemma validation_split_needs_2d_labels_witness :
  (exists e,
     _get_validation_split Demo.X10 Demo.y10_series Demo.g10 (8 # 10) =
       Err (Raised e) /\
     is_lookup_error e = true) /\
  _get_validation_split Demo.X3 Demo.y3 [7; 7; 7]%Z (8 # 10) =
    Err (Raised (ValueError "the resulting train set will be empty")) /\
  is_ok (_get_validation_split Demo.X10 Demo.y10 Demo.g10 (8 # 10)) = true /\
  exists m, Demo.y10 = Labels2D m.
Proof.
  pose proof (validation_split_needs_2d_labels (H := Demo.caps)
                Demo.X10 Demo.y10_series Demo.g10 (8 # 10)) as [H1 _].
  pose proof (validation_split_needs_2d_labels (H := Demo.caps)
                Demo.X3 Demo.y3 [7; 7; 7]%Z (8 # 10)) as [_ [H2 _]].
  pose proof (validation_split_needs_2d_labels (H := Demo.caps)
                Demo.X10 Demo.y10 Demo.g10 (8 # 10)) as [_ [_ H3]].
  split; [| split; [| split]].
  - exact (H1 _ _ _ eq_refl eq_refl).
  - exact (H2 _ _ eq_refl eq_refl).
  - reflexivity.
  - exact (H3 _ eq_refl).
Defined.

(** C9. On a grouped dataset whose labels are a vector (five sessions of
    two trials each), the group splitter yields a partition and the call
    then raises at [labels[train_ind, :]]: no [eval_set] is returned. *)
Theorem validation_split_raises_on_label_vector :
  Demo.split_next (8 # 10) Demo.X10 Demo.y10_series Demo.g10 =
    Ok ([0; 1; 2; 3; 4; 5; 6; 7], [8; 9])%nat /\
  _get_validation_split Demo.X10 Demo.y10_series Demo.g10 (8 # 10) =
    Err (Raised (IndexError
      "too many indices for array: array is 1-dimensional, but 2 were indexed")).
Proof. split; reflexivity. Qed.

(** ** The factory and the backend constructors *)

Section FactoryProperties.
Context {Feature Params Model : Type}.

(** Building the sibling error from the same kind of argument succeeds. *)
Lemma scoring_error_is_built (input_value : string) (ks : list string) :
  exists e, ScoringMethodNotFoundError_new input_value (DictKeys ks) = Ok e.
Proof. eexists. reflexivity. Qed.

(** [DecoderNotFoundError(...)] cannot be built from [d.keys()]. *)
Lemma decoder_error_is_not_built (input_value : string) (ks : list string) :
  DecoderNotFoundError_new input_value (DictKeys ks) =
    Err (AttributeError "'dict_keys' object has no attribute 'values'").
Proof. reflexivity. Qed.

(** C2. For a classifier name that is not a key of the registry after
    lowercasing, [get_decoder] does not raise a [DecoderNotFoundError]:
    building that error fails on [allowed.values], and the
    [AttributeError] of that lookup is what leaves [get_decoder]. *)
Theorem unknown_classifier_raises_attribute_error (classifier scoring : string)
    (balancing : method_value) (optimize : bool) :
  dict_get classifiers (lower classifier) = None ->
  @get_decoder Feature Params Model classifier scoring balancing optimize =
    Err (Raised
           (AttributeError "'dict_keys' object has no attribute 'values'")) /\
  forall input_value allowed message,
    @get_decoder Feature Params Model classifier scoring balancing optimize <>
      Err (DecoderNotFoundError input_value allowed message).
Proof.
  intros Hnone.
  assert (Hget :
            @get_decoder Feature Params Model classifier scoring balancing
              optimize =
            Err (Raised (AttributeError
                   "'dict_keys' object has no attribute 'values'"))).
  { unfold get_decoder. rewrite Hnone. reflexivity. }
  split; [exact Hget |].
  intros input_value allowed message. rewrite Hget. discriminate.
Qed.

(** Only [LDA] overrides both abstract methods of [Decoder]. *)
Lemma abstractmethods_spec (c : backend) :
  abstractmethods c = match c with LDA => [] | _ => ["fit"; "save_model"] end.
Proof. destruct c; reflexivity. Qed.

(** C7. [LDA(...)] raises a [ValueError] when [balancing] is
    ["balance_weights"] or [optimize] is set and otherwise returns the
    unfitted decoder; [QDA(...)] raises a [TypeError] for every argument,
    because the class defines neither [fit] nor [save_model] and is still
    abstract, so its [__post_init__] never runs. *)
Theorem discriminant_construction (score : scoring_fn)
    (balancing : method_value) (optimize : bool) :
  (@construct Feature Params Model LDA score balancing optimize =
     if method_eq_str balancing "balance_weights" then
       Err (Raised (ValueError
         "Sample weights cannot be balanced for Linear Discriminant Analysis. Please set `balance_weights` toeither `oversample`, `undersample` or `None`."))
     else if optimize then
       Err (Raised (ValueError
         "Hyperparameter optimization cannot be performed for this implementation of Linear Discriminant Analysis. Please set `optimize` to False."))
     else Ok (mk_Decoder LDA score balancing optimize None None None None)) /\
  @construct Feature Params Model QDA score balancing optimize =
    Err (Raised (TypeError
      "Can't instantiate abstract class QDA with abstract methods fit, save_model")).
Proof.
  split; [| reflexivity].
  unfold construct. simpl. unfold post_init, LDA_post_init. simpl.
  destruct (method_eq_str balancing "balance_weights"); [reflexivity |].
  destruct optimize; reflexivity.
Qed.

End FactoryProperties.

Lemma unknown_classifier_raises_attribute_error_witness :
  dict_get classifiers (lower "Bogus") = None /\
  @get_decoder Z unit (fit_call Z) "Bogus" "log_loss" MNone false =
    Err (Raised
           (AttributeError "'dict_keys' object has no attribute 'values'")).
Proof.
  split; [reflexivity |].
  apply (unknown_classifier_raises_attribute_error "Bogus" "log_loss" MNone
           false eq_refl).
Defined.

(** ** The boosting backends *)

Section BoostingProperties.
Context {Feature Params Model : Type} `{Capabilities Feature Params Model}.

Lemma lift_ok {A} (r : result py_exception A) (a : A) :
  lift r = Ok a -> r = Ok a.
Proof. destruct r; simpl; congruence. Qed.

Ltac step Hok x :=
  match type of Hok with
  | bind ?c _ = Ok _ =>
      let e := fresh "e" in
      destruct c as [x | e] eqn:?; simpl in Hok; [| discriminate Hok]
  end.

(** [CATB.fit_and_predict] balances the training partition of the
    validation split and fits on the balanced partition. *)
Lemma CATB_fits_balanced_partition (self : Decoder)
    (data_train data_test : dataframe) (labels : label_array)
    (groups : list Z) (self' : Decoder) (predictions : list Z) :
  CATB_fit_and_predict self data_train data_test labels groups =
    Ok (self', predictions) ->
  exists est part_data part_labels eval_set data' labels' sample_weight fitted,
    _get_validation_split data_train labels groups (8 # 10) =
      Ok (part_data, part_labels, eval_set) /\
    _balance_samples part_data part_labels (balancing self) =
      Ok (data', labels', sample_weight) /\
    model_fit est (mk_fit_call data' labels' eval_set 25 sample_weight) =
      Ok fitted /\
    model self' = Some (Fitted est fitted).
Proof.
  unfold CATB_fit_and_predict. intros Hok.
  step Hok est. step Hok split3. destruct split3 as [[pd pl] es].
  step Hok bal3. destruct bal3 as [[d' l'] sw].
  step Hok fitted. step Hok preds.
  injection Hok as <- <-.
  exists est, pd, pl, es, d', l', sw, fitted.
  repeat split; try reflexivity; try assumption.
  now apply lift_ok.
Qed.

(** [XGB.fit_and_predict] computes the same split, keeps only its
    [eval_set], balances the data and labels it was called with and fits
    on those. *)
Lemma XGB_fits_balanced_input (self : Decoder)
    (data_train data_test : dataframe) (labels : label_array)
    (groups : list Z) (self' : Decoder) (predictions : list Z) :
  XGB_fit_and_predict self data_train data_test labels groups =
    Ok (self', predictions) ->
  exists est part_data part_labels eval_set data' labels' sample_weight fitted,
    _get_validation_split data_train labels groups (8 # 10) =
      Ok (part_data, part_labels, eval_set) /\
    _balance_samples data_train labels (balancing self) =
      Ok (data', labels', sample_weight) /\
    model_fit est (mk_fit_call data' labels' eval_set 20 sample_weight) =
      Ok fitted /\
    model self' = Some (Fitted est fitted).
Proof.
  unfold XGB_fit_and_predict. intros Hok.
  step Hok est. step Hok split3. destruct split3 as [[pd pl] es].
  step Hok bal3. destruct bal3 as [[d' l'] sw].
  step Hok fitted. step Hok preds.
  injection Hok as <- <-.
  exists est, pd, pl, es, d', l', sw, fitted.
  repeat split; try reflexivity; try assumption.
  now apply lift_ok.
Qed.

End BoostingProperties.

(** On ten trials in five sessions the split keeps eight trials for
    training, and [CATB.fit_and_predict] fits on those eight. *)
Example catb_fits_on_partition :
  _get_validation_split Demo.X10 Demo.y10 Demo.g10 (8 # 10) =
    Ok (Demo.X10_train, Demo.y10_train, Demo.eval10) /\
  CATB_fit_and_predict Demo.catb0 Demo.X10 [[60]]%Z Demo.y10 Demo.g10 =
    Ok (mk_Decoder CATB _get_log_loss (MStr "oversample") false
          (Some (Fitted (CatBoostClassifier None)
                   (mk_fit_call Demo.X10_train Demo.y10_train Demo.eval10 25
                      None)))
          (Some Demo.X10_train) (Some Demo.y10_train) (Some Demo.g10),
        [0%Z]).
Proof. split; reflexivity. Qed.

(** C3. On the same input [XGB.fit_and_predict] balances and fits all ten
    trials it was called with, not the eight of the training partition:
    the two validation trials of [eval_set] are part of the fitted data. *)
Theorem xgb_fits_on_unsplit_data :
  _get_validation_split Demo.X10 Demo.y10 Demo.g10 (8 # 10) =
    Ok (Demo.X10_train, Demo.y10_train, Demo.eval10) /\
  _balance_samples Demo.X10 Demo.y10 (MStr "oversample") =
    Ok (Demo.X10, Demo.y10, None) /\
  XGB_fit_and_predict Demo.xgb0 Demo.X10 [[60]]%Z Demo.y10 Demo.g10 =
    Ok (mk_Decoder XGB _get_log_loss (MStr "oversample") false
          (Some (Fitted (XGBClassifier None)
                   (mk_fit_call Demo.X10 Demo.y10 Demo.eval10 20 None)))
          (Some Demo.X10) (Some Demo.y10) (Some Demo.g10),
        [0%Z]) /\
  Demo.X10 <> Demo.X10_train.
Proof. repeat split; try reflexivity. discriminate. Qed.

(** * Further properties *)

(** ** The balancer: weights, resamplers and the skip rule *)

Section BalancerFurther.
Context {Feature Params Model : Type} `{Capabilities Feature Params Model}.

Lemma bind_ok {E A B} (c : result E A) (k : A -> result E B) (b : B) :
  bind c k = Ok b -> exists a, c = Ok a /\ k a = Ok b.
Proof.
  destruct c as [a | e]; simpl; [| discriminate].
  intros Hk. now exists a.
Qed.

(** X1. Whatever the method, a sample-weight vector is returned only by
    the ["weight"] branch: for every other method value a normal return
    carries [None]. *)
Theorem sample_weight_only_for_weight (data : dataframe)
    (labels : label_array) (method : method_value) (data' : dataframe)
    (labels' : label_array) (sample_weight : option (list Q)) :
  _balance_samples data labels method = Ok (data', labels', sample_weight) ->
  method_eq_str method "weight" = false ->
  sample_weight = None.
Proof.
  unfold _balance_samples. intros Hok Hw.
  destruct (mean_ne labels (1 # 2)); [| congruence].
  repeat match type of Hok with
  | (if ?c then _ else _) = _ => destruct c eqn:?
  end;
  try congruence;
  apply bind_ok in Hok; destruct Hok as [[d l] [_ Hret]]; congruence.
Qed.

(** X2. The ["weight"] method never changes the data or the labels; when
    the label mean is not 0.5 the weights returned are those of
    [compute_sample_weight] on the labels given, and when it is 0.5 none
    are computed. *)
Theorem weight_method_keeps_data (data : dataframe) (labels : label_array)
    (data' : dataframe) (labels' : label_array)
    (sample_weight : option (list Q)) :
  _balance_samples data labels (MStr "weight") =
    Ok (data', labels', sample_weight) ->
  data' = data /\ labels' = labels /\
  (mean_ne labels (1 # 2) = true ->
   exists w, compute_sample_weight labels = Ok w /\ sample_weight = Some w) /\
  (mean_ne labels (1 # 2) = false -> sample_weight = None).
Proof.
  unfold _balance_samples. simpl.
  destruct (mean_ne labels (1 # 2)); intros Hok.
  - apply bind_ok in Hok. destruct Hok as [w [Hw Hret]].
    apply lift_ok in Hw. injection Hret as <- <- <-.
    split; [reflexivity |]. split; [reflexivity |].
    split; [intros _; now exists w | discriminate].
  - injection Hok as <- <- <-.
    split; [reflexivity |]. split; [reflexivity |].
    split; [discriminate | reflexivity].
Qed.

(** X3. For [oversample], [smote], [borderline_smote] and [undersample],
    when the label mean is not 0.5, the outcome is the resampler's own:
    its output with no sample weight, or its exception, whichever it is
    (the report that no samples will be generated included). *)
Theorem resampling_outcome_is_the_resamplers (data : dataframe)
    (labels : label_array) (name : string) (s : sampler) :
  mean_ne labels (1 # 2) = true ->
  plain_resampler name = Some s ->
  _balance_samples data labels (MStr name) =
    match fit_resample s data labels with
    | Ok (data', labels') => Ok (data', labels', None)
    | Err e => Err (Raised e)
    end.
Proof.
  intros Hm Hs. unfold plain_resampler in Hs.
  unfold _balance_samples. rewrite Hm. simpl.
  destruct (String.eqb name "oversample") eqn:H1.
  { injection Hs as <-.
    destruct (fit_resample RandomOverSampler data labels) as [[d l] | e];
      reflexivity. }
  destruct (String.eqb name "smote") eqn:H2.
  { injection Hs as <-.
    destruct (fit_resample (SMOTE 5) data labels) as [[d l] | e];
      reflexivity. }
  destruct (String.eqb name "borderline_smote") eqn:H3.
  { injection Hs as <-.
    destruct (fit_resample (BorderlineSMOTE 5 "borderline-1") data labels)
      as [[d l] | e]; reflexivity. }
  destruct (String.eqb name "undersample") eqn:H4; [| discriminate].
  injection Hs as <-.
  apply String.eqb_eq in H4. subst name. simpl.
  destruct (fit_resample RandomUnderSampler data labels) as [[d l] | e];
    reflexivity.
Qed.

End BalancerFurther.

Lemma sample_weight_only_for_weight_witness :
  _balance_samples Demo.X10 Demo.y10_skewed (MStr "adasyn") =
    Ok (Demo.X10, Demo.y10_skewed, None) /\
  method_eq_str (MStr "adasyn") "weight" = false /\
  @None (list Q) = None.
Proof.
  split; [reflexivity |]. split; [reflexivity |].
  apply (sample_weight_only_for_weight (H := Demo.caps) Demo.X10
           Demo.y10_skewed (MStr "adasyn") Demo.X10 Demo.y10_skewed None);
    reflexivity.
Defined.

Lemma weight_method_keeps_data_witness :
  _balance_samples Demo.X3 Demo.y3 (MStr "weight") =
    Ok (Demo.X3, Demo.y3, Some [3 # 2; 3 # 4; 3 # 4]) /\
  Demo.X3 = Demo.X3 /\ Demo.y3 = Demo.y3.
Proof.
  split; [reflexivity |].
  pose proof (weight_method_keeps_data (H := Demo.caps) Demo.X3 Demo.y3
                Demo.X3 Demo.y3 (Some [3 # 2; 3 # 4; 3 # 4]) eq_refl)
    as [Hd [Hl _]].
  split; assumption.
Defined.

Lemma resampling_outcome_is_the_resamplers_witness :
  mean_ne Demo.y3 (1 # 2) = true /\
  plain_resampler "smote" = Some (SMOTE 5) /\
  _balance_samples Demo.X3 Demo.y3 (MStr "smote") =
    Err (Raised (mk_exception ["RuntimeError"; "Exception"; "BaseException"]
                   [AStr "resampler not available"])).
Proof.
  split; [reflexivity |]. split; [reflexivity |].
  apply (resampling_outcome_is_the_resamplers (H := Demo.caps) Demo.X3
           Demo.y3 "smote" (SMOTE 5) eq_refl eq_refl).
Defined.

Lemma sumZ_binary (v : list Z) :
  Forall (fun x => x = 0 \/ x = 1)%Z v ->
  sumZ v = Z.of_nat (count_occ Z.eq_dec v 1%Z) /\
  List.length v = (count_occ Z.eq_dec v 0%Z + count_occ Z.eq_dec v 1%Z)%nat.
Proof.
  induction 1 as [| x v Hx _ [IHs IHl]].
  - split; reflexivity.
  - unfold sumZ in *. simpl fold_right. rewrite IHs.
    simpl List.length. rewrite IHl.
    destruct Hx as [-> | ->].
    + rewrite (count_occ_cons_eq Z.eq_dec v (eq_refl 0%Z)).
      rewrite (count_occ_cons_neq Z.eq_dec v (x := 0%Z) (y := 1%Z))
        by discriminate.
      split; lia.
    + rewrite (count_occ_cons_eq Z.eq_dec v (eq_refl 1%Z)).
      rewrite (count_occ_cons_neq Z.eq_dec v (x := 1%Z) (y := 0%Z))
        by discriminate.
      split; lia.
Qed.

(** The test [np.mean(labels) != 0.5] in integer terms. *)
Lemma mean_ne_half_iff (labels : label_array) :
  mean_ne labels (1 # 2) = false <->
  ravel labels <> [] /\
  (2 * sumZ (ravel labels) = Z.of_nat (List.length (ravel labels)))%Z.
Proof.
  unfold mean_ne, np_mean.
  destruct (ravel labels) as [| x v] eqn:Hv.
  - split; [discriminate | intros [Hne _]; congruence].
  - rewrite negb_false_iff, Qeq_bool_iff.
    set (s := sumZ (x :: v)). set (t := (2 * s)%Z).
    replace (Z.of_nat (List.length (x :: v)))
      with (Z.pos (Pos.of_succ_nat (List.length v))) by reflexivity.
    unfold Qeq, Qdiv, Qmult, Qinv, inject_Z. simpl. subst t.
    split.
    + intros Heq. split; [discriminate | lia].
    + intros [_ Heq]. lia.
Qed.



(** X5. On labels encoded as 0 and 1 the skip rule applies exactly when
    the array is not empty and holds as many ones as zeros. *)
Theorem skip_rule_binary (labels : label_array) :
  Forall (fun x => x = 0 \/ x = 1)%Z (ravel labels) ->
  (mean_ne labels (1 # 2) = false <->
   ravel labels <> [] /\
   count_occ Z.eq_dec (ravel labels) 1%Z =
     count_occ Z.eq_dec (ravel labels) 0%Z).
Proof.
  intros Hbin. rewrite mean_ne_half_iff.
  destruct (sumZ_binary _ Hbin) as [Hs Hl]. rewrite Hs, Hl.
  split; intros [Hne Heq]; (split; [assumption | lia]).
Qed.

Lemma skip_rule_binary_witness :
  Forall (fun x => x = 0 \/ x = 1)%Z (ravel Demo.y10) /\
  mean_ne Demo.y10 (1 # 2) = false /\
  count_occ Z.eq_dec (ravel Demo.y10) 1%Z =
    count_occ Z.eq_dec (ravel Demo.y10) 0%Z.
Proof.
  assert (Hbin : Forall (fun x => x = 0 \/ x = 1)%Z (ravel Demo.y10)).
  { simpl.
    repeat (apply Forall_cons;
            [(left; reflexivity) || (right; reflexivity) |]).
    apply Forall_nil. }
  split; [exact Hbin |]. split; [reflexivity |].
  exact (proj2 (proj1 (skip_rule_binary Demo.y10 Hbin) eq_refl)).
Defined.

(** With another encoding the rule also skips data that is not balanced,
    and does not skip data that is. *)
Example skip_rule_other_encodings :
  mean_ne (Labels1D [0; 0; 0; 2]%Z) (1 # 2) = false /\
  mean_ne (Labels1D [-1; 1]%Z) (1 # 2) = true.
Proof. split; reflexivity. Qed.

(** ** The validation splitter on labels that take two indices *)

Section RowSelection.
Context {A : Type}.

Lemma take_rows_ok (oob : py_exception) (rows : list A) (ind : list nat)
    (rs : list A) :
  take_rows oob rows ind = Ok rs <->
  map (nth_error rows) ind = map Some rs.
Proof.
  revert rs. induction ind as [| i ind IH]; intros rs; simpl.
  - split.
    + intros Heq. injection Heq as <-. reflexivity.
    + destruct rs; [reflexivity | discriminate].
  - destruct (nth_error rows i) as [r |] eqn:Hi.
    + destruct (take_rows oob rows ind) as [rs' | e]; simpl.
      * split.
        -- intros Heq. injection Heq as <-. simpl. f_equal.
           now apply IH.
        -- destruct rs as [| r0 rs0]; simpl; [discriminate |].
           intros Heq. injection Heq as -> Hrest.
           apply IH in Hrest. congruence.
      * split; [discriminate |].
        destruct rs as [| r0 rs0]; simpl; [discriminate |].
        intros Heq. injection Heq as _ Hrest.
        apply IH in Hrest. discriminate.
    + split; [discriminate |].
      destruct rs; simpl; discriminate.
Qed.

Lemma take_rows_length (oob : py_exception) (rows : list A)
    (ind : list nat) (rs : list A) :
  take_rows oob rows ind = Ok rs -> List.length rs = List.length ind.
Proof.
  intros Hok. apply take_rows_ok in Hok.
  apply (f_equal (@List.length _)) in Hok.
  now rewrite !length_map in Hok.
Qed.

Lemma take_rows_In (oob : py_exception) (rows : list A) (ind : list nat)
    (rs : list A) (r : A) :
  take_rows oob rows ind = Ok rs -> In r rs -> In r rows.
Proof.
  intros Hok Hin. apply take_rows_ok in Hok.
  assert (Hs : In (Some r) (map (nth_error rows) ind)).
  { rewrite Hok. now apply in_map. }
  apply in_map_iff in Hs. destruct Hs as [i [Hi _]].
  now apply nth_error_In with i.
Qed.

Lemma nth_error_all_rows (rows : list A) :
  map (nth_error rows) (seq 0 (List.length rows)) = map Some rows.
Proof.
  induction rows as [| r rows IH]; [reflexivity |].
  simpl List.length. rewrite <- cons_seq, <- seq_shift.
  simpl. f_equal. rewrite map_map, <- IH.
  apply map_ext. intros i. reflexivity.
Qed.

Lemma map_Some_inj (l l' : list A) : map Some l = map Some l' -> l = l'.
Proof.
  revert l'. induction l as [| x l IH]; intros [| y l']; simpl;
    try discriminate; [reflexivity |].
  intros Heq. injection Heq as -> Hrest. f_equal. now apply IH.
Qed.

(** Selecting by a rearrangement of all positions rearranges the rows. *)
Lemma rows_of_all_positions (rows : list A) (ind : list nat) (rs : list A) :
  map (nth_error rows) ind = map Some rs ->
  Permutation ind (seq 0 (List.length rows)) ->
  Permutation rs rows.
Proof.
  intros Hsel Hperm.
  apply (Permutation_map (nth_error rows)) in Hperm.
  rewrite Hsel, nth_error_all_rows in Hperm.
  apply Permutation_sym, Permutation_map_inv in Hperm.
  destruct Hperm as [l3 [Heq Hp]].
  apply map_Some_inj in Heq. subst l3. now apply Permutation_sym.
Qed.

End RowSelection.

Lemma nth_error_combine {A B} (a : list A) (b : list B) (i : nat) :
  nth_error (combine a b) i =
    match nth_error a i, nth_error b i with
    | Some x, Some y => Some (x, y)
    | _, _ => None
    end.
Proof.
  revert b i. induction a as [| x a IH]; intros b i.
  - simpl. destruct i; reflexivity.
  - destruct b as [| y b]; simpl.
    + destruct i as [| i]; simpl; [reflexivity |].
      destruct (nth_error a i); reflexivity.
    + destruct i as [| i]; simpl; [reflexivity | apply IH].
Qed.

Lemma select_combine {A B} (a : list A) (b : list B) (ind : list nat)
    (ra : list A) (rb : list B) :
  map (nth_error a) ind = map Some ra ->
  map (nth_error b) ind = map Some rb ->
  map (nth_error (combine a b)) ind = map Some (combine ra rb).
Proof.
  revert ra rb. induction ind as [| i ind IH]; intros [| x ra] [| y rb];
    simpl; try discriminate; [reflexivity |].
  intros Ha Hb. injection Ha as Hx Ha. injection Hb as Hy Hb.
  rewrite nth_error_combine, Hx, Hy. f_equal. now apply IH.
Qed.

Section SplitterFurther.
Context {Feature Params Model : Type} `{Capabilities Feature Params Model}.

Lemma labels_getitem_2d_ok (labels : label_array) (ind : list nat)
    (sel : label_array) :
  labels_getitem_2d labels ind = Ok sel ->
  exists m rs,
    labels = Labels2D m /\ sel = Labels2D rs /\
    map (nth_error m) ind = map Some rs.
Proof.
  destruct labels as [v | m]; simpl; [discriminate |].
  intros Hok. apply bind_ok in Hok. destruct Hok as [rs [Hrs Hret]].
  injection Hret as <-. exists m, rs.
  repeat split. now apply take_rows_ok in Hrs.
Qed.

(** X6. Whenever [_get_validation_split] returns, the training data and
    the training labels have the same number of rows, [eval_set] is one
    pair whose data and labels have the same number of rows, and every
    returned data row is a row of the data given. *)
Theorem validation_split_rows_aligned (data : dataframe)
    (labels : label_array) (groups : list Z) (train_size : Q)
    (data_train : dataframe) (labels_train : label_array)
    (eval_set : list (dataframe * label_array)) :
  _get_validation_split data labels groups train_size =
    Ok (data_train, labels_train, eval_set) ->
  List.length data_train = n_rows labels_train /\
  (forall r, In r data_train -> In r data) /\
  exists data_val labels_val,
    eval_set = [(data_val, labels_val)] /\
    List.length data_val = n_rows labels_val /\
    (forall r, In r data_val -> In r data).
Proof.
  intros Hok. apply validation_split_ok in Hok.
  destruct Hok as (tr & va & dval & lval & _ & Hdt & Hdv & Hlt & Hlv & ->).
  apply labels_getitem_2d_ok in Hlt.
  destruct Hlt as (m & mtr & -> & -> & Hmt).
  apply labels_getitem_2d_ok in Hlv.
  destruct Hlv as (m' & mval & Hm' & -> & Hmv).
  injection Hm' as <-.
  unfold iloc_rows in Hdt, Hdv.
  split; [| split].
  - rewrite (take_rows_length _ _ _ _ Hdt). simpl.
    apply (f_equal (@List.length _)) in Hmt.
    now rewrite !length_map in Hmt.
  - intros r. now apply take_rows_In with (1 := Hdt).
  - exists dval, (Labels2D mval). split; [reflexivity |]. split.
    + rewrite (take_rows_length _ _ _ _ Hdv). simpl.
      apply (f_equal (@List.length _)) in Hmv.
      now rewrite !length_map in Hmv.
    + intros r. now apply take_rows_In with (1 := Hdv).
Qed.

(** X7. When the positions the group splitter yields are, together, a
    rearrangement of all row positions, and the labels have one row per
    data row, the split neither loses nor duplicates a trial and keeps
    every data row with its own label row: the (data, label) pairs of the
    training side and of the single evaluation pair are a rearrangement
    of the pairs given. *)
Theorem validation_split_keeps_pairs (data : dataframe)
    (labels : label_array) (groups : list Z) (train_size : Q)
    (train_ind val_ind : list nat) (data_train : dataframe)
    (labels_train : label_array)
    (eval_set : list (dataframe * label_array)) :
  group_shuffle_split_next train_size data labels groups =
    Ok (train_ind, val_ind) ->
  Permutation (train_ind ++ val_ind) (seq 0 (List.length data)) ->
  n_rows labels = List.length data ->
  _get_validation_split data labels groups train_size =
    Ok (data_train, labels_train, eval_set) ->
  exists m m_train data_val m_val,
    labels = Labels2D m /\
    labels_train = Labels2D m_train /\
    eval_set = [(data_val, Labels2D m_val)] /\
    Permutation (combine data_train m_train ++ combine data_val m_val)
                (combine data m).
Proof.
  intros Hs Hperm Hrows Hok. apply validation_split_ok in Hok.
  destruct Hok as (tr & va & dval & lval & Hs' & Hdt & Hdv & Hlt & Hlv & ->).
  rewrite Hs in Hs'. injection Hs' as <- <-.
  apply labels_getitem_2d_ok in Hlt.
  destruct Hlt as (m & mtr & -> & -> & Hmt).
  apply labels_getitem_2d_ok in Hlv.
  destruct Hlv as (m' & mval & Hm' & -> & Hmv).
  injection Hm' as <-.
  exists m, mtr, dval, mval. repeat split.
  apply take_rows_ok in Hdt. apply take_rows_ok in Hdv.
  apply rows_of_all_positions with (ind := (train_ind ++ val_ind)%list).
  - rewrite !map_app.
    rewrite (select_combine _ _ _ _ _ Hdt Hmt).
    now rewrite (select_combine _ _ _ _ _ Hdv Hmv).
  - rewrite length_combine. simpl in Hrows. rewrite Hrows.
    now rewrite Nat.min_id.
Qed.

End SplitterFurther.

Lemma validation_split_rows_aligned_witness :
  _get_validation_split Demo.X10 Demo.y10 Demo.g10 (8 # 10) =
    Ok (Demo.X10_train, Demo.y10_train, Demo.eval10) /\
  List.length Demo.X10_train = n_rows Demo.y10_train.
Proof.
  split; [reflexivity |].
  exact (proj1 (validation_split_rows_aligned (H := Demo.caps) Demo.X10
                  Demo.y10 Demo.g10 (8 # 10) Demo.X10_train Demo.y10_train
                  Demo.eval10 eq_refl)).
Defined.

Lemma validation_split_keeps_pairs_witness :
  exists m m_train data_val m_val,
    Demo.y10 = Labels2D m /\
    Demo.y10_train = Labels2D m_train /\
    Demo.eval10 = [(data_val, Labels2D m_val)] /\
    Permutation (combine Demo.X10_train m_train ++ combine data_val m_val)
                (combine Demo.X10 m).
Proof.
  apply (validation_split_keeps_pairs (H := Demo.caps) Demo.X10 Demo.y10
           Demo.g10 (8 # 10) [0; 1; 2; 3; 4; 5; 6; 7]%nat [8; 9]%nat
           Demo.X10_train Demo.y10_train Demo.eval10).
  - reflexivity.
  - apply Permutation_refl.
  - reflexivity.
  - reflexivity.
Defined.

(** ** The factory: case, precedence of the checks, what it can return *)

Lemma lower_ascii_idem (c : ascii) : lower_ascii (lower_ascii c) = lower_ascii c.
Proof.
  destruct c as [[] [] [] [] [] [] [] []]; reflexivity.
Qed.

Lemma lower_idem (s : string) : lower (lower s) = lower s.
Proof.
  induction s as [| c s IH]; simpl; [reflexivity |].
  now rewrite lower_ascii_idem, IH.
Qed.

Lemma lower_balancing_idem (b : method_value) :
  lower_balancing (lower_balancing b) = lower_balancing b.
Proof.
  destruct b; simpl; [| reflexivity | reflexivity].
  now rewrite lower_idem.
Qed.

Lemma classifiers_only_lda (name : string) (c : backend) :
  dict_get classifiers name = Some c ->
  abstractmethods c = [] ->
  name = "lda" /\ c = LDA.
Proof.
  unfold classifiers. simpl.
  repeat match goal with
  | |- context [String.eqb name ?k] => destruct (String.eqb name k) eqn:?
  end;
  intros Hget Habs; try discriminate Hget;
    injection Hget as <-; try discriminate Habs.
  split; [now apply String.eqb_eq | reflexivity].
Qed.

Section FactoryFurther.
Context {Feature Params Model : Type}.

(** X8. Names are matched without regard to case: [get_decoder] gives the
    same outcome for the classifier, scoring and balancing names it is
    given and for their lowercase forms. *)
Theorem get_decoder_ignores_case (classifier scoring : string)
    (balancing : method_value) (optimize : bool) :
  @get_decoder Feature Params Model classifier scoring balancing optimize =
  @get_decoder Feature Params Model (lower classifier) (lower scoring)
    (lower_balancing balancing) optimize.
Proof.
  unfold get_decoder. rewrite !lower_idem.
  fold (lower_balancing balancing).
  fold (lower_balancing (lower_balancing balancing)).
  now rewrite lower_balancing_idem.
Qed.

(** X9. For a registered classifier and a scoring name that is not
    registered, [get_decoder] raises [ScoringMethodNotFoundError] carrying
    the lowercased name and the keys of [scoring_methods]; the backend is
    not constructed, so this holds for every backend and every balancing
    and optimize value. *)
Theorem unknown_scoring_raises (classifier scoring : string)
    (balancing : method_value) (optimize : bool) (c : backend) :
  dict_get classifiers (lower classifier) = Some c ->
  dict_get scoring_methods (lower scoring) = None ->
  @get_decoder Feature Params Model classifier scoring balancing optimize =
    Err (ScoringMethodNotFoundError (lower scoring)
           (DictKeys ["balanced_accuracy"; "log_loss"])
           "Input scoring method is not an allowed value.").
Proof.
  intros Hc Hs. unfold get_decoder. rewrite Hc, Hs. reflexivity.
Qed.

(** When [get_decoder] returns, and what. *)
Lemma get_decoder_ok_iff (classifier scoring : string)
    (balancing : method_value) (optimize : bool)
    (d : @Decoder Feature Params Model) :
  get_decoder classifier scoring balancing optimize = Ok d <->
  lower classifier = "lda" /\
  optimize = false /\
  method_eq_str (lower_balancing balancing) "balance_weights" = false /\
  exists score,
    dict_get scoring_methods (lower scoring) = Some score /\
    d = mk_Decoder LDA score (lower_balancing balancing) false
          None None None None.
Proof.
  unfold get_decoder. fold (lower_balancing balancing). split.
  - destruct (dict_get classifiers (lower classifier)) as [c |] eqn:Hc;
      [| discriminate].
    destruct (dict_get scoring_methods (lower scoring)) as [score |] eqn:Hs;
      [| discriminate].
    unfold construct.
    destruct (abstractmethods c) as [| m ms] eqn:Habs; [| discriminate].
    destruct (classifiers_only_lda _ _ Hc Habs) as [Hname ->].
    unfold post_init, LDA_post_init. simpl.
    destruct (method_eq_str (lower_balancing balancing) "balance_weights");
      [discriminate |].
    destruct optimize; [discriminate |].
    simpl. intros Hok. injection Hok as <-.
    repeat split; try assumption. now exists score.
  - intros (Hname & -> & Hb & score & Hs & ->).
    rewrite Hname, Hs. simpl. unfold construct. simpl.
    unfold post_init, LDA_post_init. simpl. now rewrite Hb.
Qed.

(** X10. [get_decoder] returns a decoder exactly when the classifier name
    is ["lda"] up to case, the scoring name is registered, the lowercased
    balancing is not ["balance_weights"] and [optimize] is unset; the
    decoder is then the unfitted [LDA] with the registered scoring
    function and the lowercased balancing. *)
Theorem get_decoder_returns_iff (classifier scoring : string)
    (balancing : method_value) (optimize : bool)
    (d : @Decoder Feature Params Model) :
  get_decoder classifier scoring balancing optimize = Ok d <->
  lower classifier = "lda" /\
  optimize = false /\
  method_eq_str (lower_balancing balancing) "balance_weights" = false /\
  exists score,
    dict_get scoring_methods (lower scoring) = Some score /\
    d = mk_Decoder LDA score (lower_balancing balancing) false
          None None None None.
Proof. exact (get_decoder_ok_iff classifier scoring balancing optimize d). Qed.

(** X11. For each of the registered names [catboost], [dummy], [lr],
    [qda] and [xgb], with a registered scoring name, [get_decoder] raises
    a [TypeError]: the class leaves [fit] and [save_model] abstract. *)
Theorem abstract_backends_are_not_constructed (classifier scoring : string)
    (balancing : method_value) (optimize : bool) (c : backend)
    (score : scoring_fn) :
  dict_get classifiers (lower classifier) = Some c ->
  c <> LDA ->
  dict_get scoring_methods (lower scoring) = Some score ->
  @get_decoder Feature Params Model classifier scoring balancing optimize =
    Err (Raised (TypeError
      ("Can't instantiate abstract class " ++ class_name c
       ++ " with abstract methods fit, save_model"))).
Proof.
  intros Hc Hne Hs. unfold get_decoder. rewrite Hc, Hs.
  destruct c; try reflexivity. now contradiction Hne.
Qed.

End FactoryFurther.

Lemma unknown_scoring_raises_witness :
  @get_decoder Z unit (fit_call Z) "XGB" "Accuracy" (MStr "Oversample") true =
    Err (ScoringMethodNotFoundError "accuracy"
           (DictKeys ["balanced_accuracy"; "log_loss"])
           "Input scoring method is not an allowed value.").
Proof.
  apply (unknown_scoring_raises "XGB" "Accuracy" (MStr "Oversample") true
           XGB eq_refl eq_refl).
Defined.

Lemma abstract_backends_are_not_constructed_witness :
  @get_decoder Z unit (fit_call Z) "CatBoost" "log_loss" MNone false =
    Err (Raised (TypeError
      "Can't instantiate abstract class CATB with abstract methods fit, save_model")).
Proof.
  apply (abstract_backends_are_not_constructed "CatBoost" "log_loss" MNone
           false CATB _get_log_loss eq_refl).
  - discriminate.
  - reflexivity.
Defined.

(** The factory on mixed-case names. *)
Example get_decoder_lda :
  @get_decoder Z unit (fit_call Z) "LDA" "Balanced_Accuracy"
    (MStr "OverSample") false =
    Ok (mk_Decoder LDA _get_balanced_accuracy (MStr "oversample") false
          None None None None).
Proof. reflexivity. Qed.

(** ** The boosting backends: label shape, state after a fit, scoring *)

Section BoostingFurther.
Context {Feature Params Model Proba Score : Type}
        `{Capabilities Feature Params Model}
        `{Metrics Feature Params Model Proba Score}.

(** X12. With labels given as a vector, [fit_and_predict] of neither
    boosting backend returns: both run the validation split, which needs
    labels that take two indices. *)
Theorem boosting_fit_needs_2d_labels (self : @Decoder Feature Params Model)
    (data_train data_test : dataframe) (v : list Z) (groups : list Z)
    (r : @Decoder Feature Params Model * list Z) :
  CATB_fit_and_predict self data_train data_test (Labels1D v) groups <> Ok r /\
  XGB_fit_and_predict self data_train data_test (Labels1D v) groups <> Ok r.
Proof.
  destruct r as [self' predictions].
  split; intros Hok.
  - apply CATB_fits_balanced_partition in Hok.
    destruct Hok as (est & pd & pl & es & d' & l' & sw & m & Hs & _).
    apply validation_split_ok in Hs.
    destruct Hs as (tr & va & dval & lval & _ & _ & _ & Hl & _).
    discriminate Hl.
  - apply XGB_fits_balanced_input in Hok.
    destruct Hok as (est & pd & pl & es & d' & l' & sw & m & Hs & _).
    apply validation_split_ok in Hs.
    destruct Hs as (tr & va & dval & lval & _ & _ & _ & Hl & _).
    discriminate Hl.
Qed.

Lemma CATB_state (self : @Decoder Feature Params Model)
    (data_train data_test : dataframe) (labels : label_array)
    (groups : list Z) (self' : @Decoder Feature Params Model)
    (predictions : list Z) :
  CATB_fit_and_predict self data_train data_test labels groups =
    Ok (self', predictions) ->
  fitted_state self self' groups 25 /\
  Decoder_predict self' data_test = Ok predictions.
Proof.
  unfold CATB_fit_and_predict. intros Hok.
  apply bind_ok in Hok. destruct Hok as (est & _ & Hok).
  apply bind_ok in Hok. destruct Hok as ([[pd pl] es] & _ & Hok).
  apply bind_ok in Hok. destruct Hok as ([[d' l'] sw] & _ & Hok).
  apply bind_ok in Hok. destruct Hok as (fitted & Hfit & Hok).
  apply bind_ok in Hok. destruct Hok as (preds & Hpred & Hok).
  injection Hok as <- <-. apply lift_ok in Hfit.
  split.
  - unfold fitted_state. simpl. repeat split.
    exists est, (mk_fit_call d' l' es 25 sw), fitted. now repeat split.
  - unfold Decoder_predict. simpl. exact Hpred.
Qed.

Lemma XGB_state (self : @Decoder Feature Params Model)
    (data_train data_test : dataframe) (labels : label_array)
    (groups : list Z) (self' : @Decoder Feature Params Model)
    (predictions : list Z) :
  XGB_fit_and_predict self data_train data_test labels groups =
    Ok (self', predictions) ->
  fitted_state self self' groups 20 /\
  Decoder_predict self' data_test = Ok predictions.
Proof.
  unfold XGB_fit_and_predict. intros Hok.
  apply bind_ok in Hok. destruct Hok as (est & _ & Hok).
  apply bind_ok in Hok. destruct Hok as ([[pd pl] es] & _ & Hok).
  apply bind_ok in Hok. destruct Hok as ([[d' l'] sw] & _ & Hok).
  apply bind_ok in Hok. destruct Hok as (fitted & Hfit & Hok).
  apply bind_ok in Hok. destruct Hok as (preds & Hpred & Hok).
  injection Hok as <- <-. apply lift_ok in Hfit.
  split.
  - unfold fitted_state. simpl. repeat split.
    exists est, (mk_fit_call d' l' es 20 sw), fitted. now repeat split.
  - unfold Decoder_predict. simpl. exact Hpred.
Qed.

(** X13. After a [fit_and_predict] of either boosting backend that
    returns, the decoder keeps its class, scoring, balancing and optimize
    settings, stores the groups it was given, holds a fitted model, and
    its stored training data and labels are exactly the data and labels
    that model was fitted on (early stopping after 25 rounds for CATB, 20
    for XGB). *)
Theorem boosting_fit_leaves_fitted_state
    (self : @Decoder Feature Params Model)
    (data_train data_test : dataframe) (labels : label_array)
    (groups : list Z) (self' : @Decoder Feature Params Model)
    (predictions : list Z) :
  (CATB_fit_and_predict self data_train data_test labels groups =
     Ok (self', predictions) ->
   fitted_state self self' groups 25) /\
  (XGB_fit_and_predict self data_train data_test labels groups =
     Ok (self', predictions) ->
   fitted_state self self' groups 20).
Proof.
  split; intros Hok.
  - now apply CATB_state in Hok.
  - now apply XGB_state in Hok.
Qed.

(** X14. The predictions a boosting [fit_and_predict] returns are those
    [predict] of the resulting decoder gives on the same test data, and
    with the balanced-accuracy scoring [get_score] on that test data is
    [balanced_accuracy_score] of the test labels and those predictions. *)
Theorem boosting_fit_then_predict (self : @Decoder Feature Params Model)
    (data_train data_test : dataframe) (labels : label_array)
    (groups : list Z) (self' : @Decoder Feature Params Model)
    (predictions : list Z) :
  CATB_fit_and_predict self data_train data_test labels groups =
    Ok (self', predictions) \/
  XGB_fit_and_predict self data_train data_test labels groups =
    Ok (self', predictions) ->
  Decoder_predict self' data_test = Ok predictions /\
  (scoring self = _get_balanced_accuracy ->
   forall label_test,
     Decoder_get_score self' data_test label_test =
       lift (balanced_accuracy_score label_test predictions)).
Proof.
  intros Hok.
  assert (Hst : exists rounds,
             fitted_state self self' groups rounds /\
             Decoder_predict self' data_test = Ok predictions).
  { destruct Hok as [Hok | Hok].
    - exists 25%nat. now apply CATB_state in Hok.
    - exists 20%nat. now apply XGB_state in Hok. }
  destruct Hst as (rounds & Hst & Hp). split; [exact Hp |].
  intros Hsc label_test.
  destruct Hst as (_ & Hs' & _ & _ & _ & est & call & fitted & _ & Hm & _).
  unfold Decoder_get_score, Decoder_predict in *.
  rewrite Hm in *. rewrite Hs', Hsc. simpl.
  apply lift_ok in Hp. now rewrite Hp.
Qed.

(** X15. When the balancing step is skipped (label mean 0.5),
    [XGB.fit_and_predict] fits its model on all the data and labels it
    was called with, while the rows of its early-stopping [eval_set] are
    rows of that same data: the held-out rows are part of the training
    data. *)
Theorem xgb_trains_on_held_out_rows (self : @Decoder Feature Params Model)
    (data_train data_test : dataframe) (labels : label_array)
    (groups : list Z) (self' : @Decoder Feature Params Model)
    (predictions : list Z) :
  mean_ne labels (1 # 2) = false ->
  XGB_fit_and_predict self data_train data_test labels groups =
    Ok (self', predictions) ->
  exists est data_val labels_val fitted,
    model_fit est
      (mk_fit_call data_train labels [(data_val, labels_val)] 20 None) =
      Ok fitted /\
    model self' = Some (Fitted est fitted) /\
    forall r, In r data_val -> In r data_train.
Proof.
  intros Hm Hok. apply XGB_fits_balanced_input in Hok.
  destruct Hok as (est & pd & pl & es & d' & l' & sw & m & Hs & Hb & Hf & Hmod).
  rewrite (balance_skip _ _ _ Hm) in Hb. injection Hb as <- <- <-.
  apply validation_split_ok in Hs.
  destruct Hs as (tr & va & dval & lval & _ & _ & Hdv & _ & _ & ->).
  exists est, dval, lval, m. repeat split; try assumption.
  intros r. now apply take_rows_In with (1 := Hdv).
Qed.

End BoostingFurther.

Lemma xgb10_is_fitted :
  XGB_fit_and_predict Demo.xgb0 Demo.X10 [[60]]%Z Demo.y10 Demo.g10 =
    Ok (xgb10, [0%Z]).
Proof. reflexivity. Qed.

Lemma boosting_fit_leaves_fitted_state_witness :
  fitted_state Demo.xgb0 xgb10 Demo.g10 20.
Proof.
  exact (proj2 (boosting_fit_leaves_fitted_state (H := Demo.caps)
                  Demo.xgb0 Demo.X10 [[60]]%Z Demo.y10 Demo.g10 xgb10
                  [0%Z]) eq_refl).
Defined.

Lemma boosting_fit_then_predict_witness :
  Decoder_predict (H0 := DemoSurface.metrics) xgb10 [[60]]%Z = Ok [0%Z].
Proof.
  exact (proj1 (boosting_fit_then_predict (H := Demo.caps)
                  (H0 := DemoSurface.metrics) Demo.xgb0 Demo.X10 [[60]]%Z
                  Demo.y10 Demo.g10 xgb10 [0%Z] (or_intror eq_refl))).
Defined.

Lemma xgb_trains_on_held_out_rows_witness :
  exists est data_val labels_val fitted,
    model_fit (Capabilities := Demo.caps) est
      (mk_fit_call Demo.X10 Demo.y10 [(data_val, labels_val)] 20 None) =
      Ok fitted /\
    model xgb10 = Some (Fitted est fitted) /\
    forall r, In r data_val -> In r Demo.X10.
Proof.
  exact (xgb_trains_on_held_out_rows (H := Demo.caps) Demo.xgb0 Demo.X10
           [[60]]%Z Demo.y10 Demo.g10 xgb10 [0%Z] eq_refl eq_refl).
Defined.

(** ** The factory's decoder before a fit *)

Section UnfittedDecoder.
Context {Feature Params Model Proba Score : Type}
        `{Capabilities Feature Params Model}
        `{Metrics Feature Params Model Proba Score}.

(** X16. Every decoder [get_decoder] returns is unfitted: until a fit
    assigns [model], its [predict], [predict_proba] and [get_score] raise
    the [AttributeError] of the missing attribute, whatever the data. *)
Theorem factory_decoder_is_unfitted (classifier scoring : string)
    (balancing : method_value) (optimize : bool)
    (d : @Decoder Feature Params Model) (data : dataframe)
    (label_test : label_array) :
  get_decoder classifier scoring balancing optimize = Ok d ->
  let e := Raised (AttributeError "'LDA' object has no attribute 'model'") in
  Decoder_predict d data = Err e /\
  Decoder_predict_proba d data = Err e /\
  Decoder_get_score d data label_test = Err e.
Proof.
  intros Hok. apply get_decoder_ok_iff in Hok.
  destruct Hok as (_ & _ & _ & score & _ & ->).
  repeat split.
Qed.

End UnfittedDecoder.

Lemma factory_decoder_is_unfitted_witness :
  Decoder_predict (H := Demo.caps) (H0 := DemoSurface.metrics)
    (mk_Decoder LDA _get_log_loss MNone false None None None None)
    Demo.X3 =
    Err (Raised (AttributeError "'LDA' object has no attribute 'model'")).
Proof.
  exact (proj1 (factory_decoder_is_unfitted (H := Demo.caps)
                  (H0 := DemoSurface.metrics) "Lda" "Log_Loss" MNone false
                  (mk_Decoder LDA _get_log_loss MNone false
                     None None None None)
                  Demo.X3 Demo.y3 eq_refl)).
Defined.

(** ** The one-shot backends *)

Section PlainFurther.
Context {Feature Params Model : Type}
        `{Capabilities Feature Params Model}
        `{PlainCapabilities Feature Params Model}.

Lemma balance_weight_keeps (data : dataframe) (labels : label_array)
    (data' : dataframe) (labels' : label_array)
    (sample_weight : option (list Q)) :
  _balance_samples data labels (MStr "weight") =
    Ok (data', labels', sample_weight) ->
  data' = data /\ labels' = labels.
Proof.
  unfold _balance_samples. simpl.
  destruct (mean_ne labels (1 # 2)); intros Hok.
  - apply bind_ok in Hok. destruct Hok as [w [_ Hret]].
    injection Hret as <- <- _. now split.
  - injection Hok as <- <- _. now split.
Qed.

(** X17. With balancing ["weight"], a fit of [LDA], [Dummy], [QDA] or
    [LR] that returns has fitted the model on the data and labels as
    given and without any sample weight: the weights the balancer
    computes are discarded. *)
Theorem one_shot_fits_drop_the_weights
    (self self' : @PlainDecoder Feature Params Model)
    (data_train data_test : dataframe) (labels : label_array)
    (groups : list Z) (predictions : list Z) :
  p_balancing self = MStr "weight" ->
  (LDA_fit self data_train labels groups = Ok self' ->
   fitted_plainly self self' (LinearDiscriminantAnalysis "lsqr" "auto")
     data_train labels) /\
  (Dummy_fit_and_predict self data_train data_test labels groups =
     Ok (self', predictions) ->
   fitted_plainly self self' (DummyClassifier "uniform") data_train labels) /\
  (QDA_fit_and_predict self data_train labels data_test groups =
     Ok (self', predictions) ->
   fitted_plainly self self' QuadraticDiscriminantAnalysis
     data_train labels) /\
  (LR_fit_and_predict self data_train data_test labels groups =
     Ok (self', predictions) ->
   exists tuned,
     fitted_plainly self self' (LogisticRegression "newton-cg" tuned)
       data_train labels).
Proof.
  intros Hb. split; [| split; [| split]].
  - unfold LDA_fit. rewrite Hb. intros Hok.
    apply bind_ok in Hok. destruct Hok as ([[d l] sw] & Hbal & Hok).
    apply balance_weight_keeps in Hbal. destruct Hbal as [-> ->].
    apply bind_ok in Hok. destruct Hok as (m & Hfit & Hok).
    apply lift_ok in Hfit. injection Hok as <-.
    unfold fitted_plainly. simpl. repeat (split; [assumption || reflexivity || (symmetry; assumption) |]).
    exists m. repeat split; assumption || reflexivity.
  - unfold Dummy_fit_and_predict. rewrite Hb. intros Hok.
    apply bind_ok in Hok. destruct Hok as ([[d l] sw] & Hbal & Hok).
    apply balance_weight_keeps in Hbal. destruct Hbal as [-> ->].
    apply bind_ok in Hok. destruct Hok as (m & Hfit & Hok).
    apply bind_ok in Hok. destruct Hok as (preds & _ & Hok).
    apply lift_ok in Hfit. injection Hok as <- _.
    unfold fitted_plainly. simpl. repeat (split; [assumption || reflexivity || (symmetry; assumption) |]).
    exists m. repeat split; assumption || reflexivity.
  - unfold QDA_fit_and_predict. rewrite Hb. intros Hok.
    apply bind_ok in Hok. destruct Hok as ([[d l] sw] & Hbal & Hok).
    apply balance_weight_keeps in Hbal. destruct Hbal as [-> ->].
    apply bind_ok in Hok. destruct Hok as (m & Hfit & Hok).
    apply bind_ok in Hok. destruct Hok as (preds & _ & Hok).
    apply lift_ok in Hfit. injection Hok as <- _.
    unfold fitted_plainly. simpl. repeat (split; [assumption || reflexivity || (symmetry; assumption) |]).
    exists m. repeat split; assumption || reflexivity.
  - unfold LR_fit_and_predict. rewrite Hb. intros Hok.
    apply bind_ok in Hok. destruct Hok as (est & Hest & Hok).
    apply bind_ok in Hok. destruct Hok as ([[d l] sw] & Hbal & Hok).
    apply balance_weight_keeps in Hbal. destruct Hbal as [-> ->].
    apply bind_ok in Hok. destruct Hok as (m & Hfit & Hok).
    apply bind_ok in Hok. destruct Hok as (preds & _ & Hok).
    apply lift_ok in Hfit. injection Hok as <- _.
    assert (Htuned : exists tuned, est = LogisticRegression "newton-cg" tuned).
    { destruct (p_optimize self).
      - apply bind_ok in Hest. destruct Hest as (params & _ & Hret).
        injection Hret as <-. now eexists.
      - injection Hest as <-. now eexists. }
    destruct Htuned as [tuned ->]. exists tuned.
    unfold fitted_plainly. simpl. repeat (split; [assumption || reflexivity || (symmetry; assumption) |]).
    exists m. repeat split; assumption || reflexivity.
Qed.

(** X18. The predictions [fit_and_predict] of [LR] and [QDA] returns are
    those [predict] of the resulting decoder gives on the same test data.
    Of the one-shot backends only [LR] stores the groups it is given;
    [LDA.fit], [Dummy] and [QDA] leave [groups_train] as it was, and after
    [LDA.fit] [predict] delegates to the fitted model. *)
Theorem one_shot_fit_then_predict
    (self self' : @PlainDecoder Feature Params Model)
    (data_train data_test : dataframe) (labels : label_array)
    (groups : list Z) (predictions : list Z) :
  (LR_fit_and_predict self data_train data_test labels groups =
     Ok (self', predictions) ->
   PlainDecoder_predict self' data_test = Ok predictions /\
   p_groups_train self' = Some groups) /\
  (QDA_fit_and_predict self data_train labels data_test groups =
     Ok (self', predictions) ->
   PlainDecoder_predict self' data_test = Ok predictions /\
   p_groups_train self' = p_groups_train self) /\
  (Dummy_fit_and_predict self data_train data_test labels groups =
     Ok (self', predictions) ->
   p_groups_train self' = p_groups_train self) /\
  (LDA_fit self data_train labels groups = Ok self' ->
   p_groups_train self' = p_groups_train self /\
   exists est fitted,
     p_model self' = Some (est, fitted) /\
     LDA_predict self' data_test = lift (model_predict fitted data_test)).
Proof.
  split; [| split; [| split]]; intros Hok.
  - unfold LR_fit_and_predict in Hok.
    apply bind_ok in Hok. destruct Hok as (est & _ & Hok).
    apply bind_ok in Hok. destruct Hok as ([[d l] sw] & _ & Hok).
    apply bind_ok in Hok. destruct Hok as (m & _ & Hok).
    apply bind_ok in Hok. destruct Hok as (preds & Hp & Hok).
    injection Hok as <- <-. split; [exact Hp | reflexivity].
  - unfold QDA_fit_and_predict in Hok.
    apply bind_ok in Hok. destruct Hok as ([[d l] sw] & _ & Hok).
    apply bind_ok in Hok. destruct Hok as (m & _ & Hok).
    apply bind_ok in Hok. destruct Hok as (preds & Hp & Hok).
    injection Hok as <- <-. split; [exact Hp | reflexivity].
  - unfold Dummy_fit_and_predict in Hok.
    apply bind_ok in Hok. destruct Hok as ([[d l] sw] & _ & Hok).
    apply bind_ok in Hok. destruct Hok as (m & _ & Hok).
    apply bind_ok in Hok. destruct Hok as (preds & Hp & Hok).
    injection Hok as <- <-. reflexivity.
  - unfold LDA_fit in Hok.
    apply bind_ok in Hok. destruct Hok as ([[d l] sw] & _ & Hok).
    apply bind_ok in Hok. destruct Hok as (m & _ & Hok).
    injection Hok as <-. split; [reflexivity |].
    eexists. exists m. split; reflexivity.
Qed.

End PlainFurther.

Lemma one_shot_fits_drop_the_weights_witness :
  _balance_samples Demo.X3 Demo.y3 (MStr "weight") =
    Ok (Demo.X3, Demo.y3, Some [3 # 2; 3 # 4; 3 # 4]) /\
  fitted_plainly (H0 := DemoSurface.plain) DemoSurface.lda0 lda3
    (LinearDiscriminantAnalysis "lsqr" "auto") Demo.X3 Demo.y3.
Proof.
  split; [reflexivity |].
  exact (proj1 (one_shot_fits_drop_the_weights (H := Demo.caps)
                  (H0 := DemoSurface.plain) DemoSurface.lda0 lda3 Demo.X3
                  [[60]]%Z Demo.y3 [1; 1; 2]%Z [0%Z] eq_refl) eq_refl).
Defined.

Lemma one_shot_fit_then_predict_witness :
  PlainDecoder_predict (H := Demo.caps) lr3 [[60]]%Z = Ok [0%Z] /\
  p_groups_train lr3 = Some [1; 1; 2]%Z.
Proof.
  exact (proj1 (one_shot_fit_then_predict (H := Demo.caps)
                  (H0 := DemoSurface.plain) DemoSurface.lr0 lr3 Demo.X3
                  [[60]]%Z Demo.y3 [1; 1; 2]%Z [0%Z]) eq_refl).
Defined.

(** ** What the configuration errors print *)

Section ErrorText.
Context {Feature Params Model : Type} `{Capabilities Feature Params Model}.

(** X19. The error an unregistered scoring name raises prints as the
    literal text [{self.message}], the keys of the scoring registry and
    the lowercased name; the message the error was built with is not part
    of the text. *)
Theorem unknown_scoring_error_text (classifier scoring : string)
    (balancing : method_value) (optimize : bool) (c : backend) :
  dict_get classifiers (lower classifier) = Some c ->
  dict_get scoring_methods (lower scoring) = None ->
  exists e,
    @get_decoder Feature Params Model classifier scoring balancing optimize =
      Err e /\
    exn_str e =
      Some ("{self.message} Allowed values: "
            ++ "dict_keys(['balanced_accuracy', 'log_loss'])"
            ++ ". Got: " ++ lower scoring ++ ".").
Proof.
  intros Hc Hs. unfold get_decoder. rewrite Hc, Hs.
  eexists. split; reflexivity.
Qed.

(** X20. The error [_balance_samples] raises for a method it does not
    handle prints as the literal text [{self.message}], the allow-list
    (in which [balance_weights], [True] and [False] appear) and the
    method given; the message is not part of the text. *)
Theorem unknown_method_error_text (data : dataframe) (labels : label_array)
    (method : method_value) :
  mean_ne labels (1 # 2) = true ->
  method_eq_str method "oversample" = false ->
  method_eq_str method "smote" = false ->
  method_eq_str method "borderline_smote" = false ->
  method_eq_str method "adasyn" = false ->
  method_eq_str method "undersample" = false ->
  method_eq_str method "weight" = false ->
  exists e,
    _balance_samples data labels method = Err e /\
    exn_str e =
      Some ("{self.message} Allowed values: "
            ++ "['oversample', 'smote', 'borderline_smote', 'adasyn', "
            ++ "'undersample', 'balance_weights', True, False]"
            ++ ". Got: " ++ py_str method ++ ".").
Proof.
  intros Hm H1 H2 H3 H4 H5 H6.
  rewrite (balance_else data labels method Hm H1 H2 H3 H4 H5 H6).
  eexists. split; reflexivity.
Qed.

End ErrorText.

Lemma unknown_scoring_error_text_witness :
  exists e,
    @get_decoder Z unit (fit_call Z) "lda" "F1" MNone false = Err e /\
    exn_str e =
      Some "{self.message} Allowed values: dict_keys(['balanced_accuracy', 'log_loss']). Got: f1.".
Proof.
  exact (unknown_scoring_error_text "lda" "F1" MNone false LDA
           eq_refl eq_refl).
Defined.

Lemma unknown_method_error_text_witness :
  exists e,
    _balance_samples Demo.X3 Demo.y3 (MBool true) = Err e /\
    exn_str e =
      Some "{self.message} Allowed values: ['oversample', 'smote', 'borderline_smote', 'adasyn', 'undersample', 'balance_weights', True, False]. Got: True.".
Proof.
  exact (unknown_method_error_text (H := Demo.caps) Demo.X3 Demo.y3
           (MBool true) eq_refl eq_refl eq_refl eq_refl eq_refl eq_refl
           eq_refl).
Defined.

(** ** The tuning objective of XGB *)

Section TuningFurther.
Context {Feature Params Model Proba Score : Type}
        `{Capabilities Feature Params Model}
        `{TuneCapabilities Feature Params Model Proba Score}.

Lemma labels_getitem_1d (v : list Z) (ind : list nat) (sel : label_array) :
  labels_getitem (Labels1D v) ind = Ok sel -> exists w, sel = Labels1D w.
Proof.
  simpl. intros Hok. apply bind_ok in Hok.
  destruct Hok as [w [_ Hret]]. injection Hret as <-. now exists w.
Qed.

(** What a fold that is scored went through. *)
Lemma XGB_bo_fold_ok (balancing : method_value) (candidate : Params)
    (data : dataframe) (labels : label_array) (groups : list Z)
    (train_index test_index : list nat) (score : Score) :
  XGB_bo_fold balancing candidate data labels groups train_index test_index =
    Ok score ->
  exists fold_data fold_labels fold_groups part_data part_labels eval_set
         data' labels' sample_weight inner_model,
    iloc_rows data train_index = Ok fold_data /\
    labels_getitem labels train_index = Ok fold_labels /\
    groups_getitem groups train_index = Ok fold_groups /\
    _get_validation_split fold_data fold_labels fold_groups (8 # 10) =
      Ok (part_data, part_labels, eval_set) /\
    _balance_samples part_data part_labels balancing =
      Ok (data', labels', sample_weight) /\
    inner_model_fit candidate
      (mk_fit_call data' labels' eval_set 20 sample_weight) = Ok inner_model.
Proof.
  unfold XGB_bo_fold. intros Hok.
  apply bind_ok in Hok. destruct Hok as (fd & Hfd & Hok).
  apply bind_ok in Hok. destruct Hok as (ft & _ & Hok).
  apply bind_ok in Hok. destruct Hok as (fl & Hfl & Hok).
  apply bind_ok in Hok. destruct Hok as (fe & _ & Hok).
  apply bind_ok in Hok. destruct Hok as (fg & Hfg & Hok).
  apply bind_ok in Hok. destruct Hok as ([[pd pl] es] & Hs & Hok).
  apply bind_ok in Hok. destruct Hok as ([[d' l'] sw] & Hb & Hok).
  apply bind_ok in Hok. destruct Hok as (m & Hm & Hok).
  apply lift_ok in Hfd. apply lift_ok in Hfl. apply lift_ok in Hfg.
  apply lift_ok in Hm.
  exists fd, fl, fg, pd, pl, es, d', l', sw, m. now repeat split.
Qed.

(** X21. For a decoder holding a label vector, the tuning objective of
    XGB returns no score as soon as the grouped k-fold yields a fold: the
    validation split inside the first fold needs labels that take two
    indices. *)
Theorem xgb_tuning_needs_2d_labels (self : @Decoder Feature Params Model)
    (candidate : Params) (data : dataframe) (v : list Z) (groups : list Z)
    (fold : list nat * list nat) (folds : list (list nat * list nat))
    (score : Score) :
  data_train self = Some data ->
  labels_train self = Some (Labels1D v) ->
  groups_train self = Some groups ->
  group_kfold_split 3 data (Labels1D v) groups = Ok (fold :: folds) ->
  XGB_bo_tune self candidate <> Ok score.
Proof.
  intros Hd Hl Hg Hk Hok. unfold XGB_bo_tune in Hok.
  rewrite Hd, Hl, Hg, Hk in Hok. simpl in Hok.
  destruct fold as [train_index test_index].
  apply bind_ok in Hok. destruct Hok as (scores & Hsc & _).
  simpl in Hsc.
  apply bind_ok in Hsc. destruct Hsc as (s1 & Hfold & _).
  apply XGB_bo_fold_ok in Hfold.
  destruct Hfold as (fd & fl & fg & pd & pl & es & d' & l' & sw & m
                     & _ & Hfl & _ & Hs & _).
  apply labels_getitem_1d in Hfl. destruct Hfl as [w ->].
  apply validation_split_ok in Hs.
  destruct Hs as (tr & va & dval & lval & _ & _ & _ & Hlt & _).
  discriminate Hlt.
Qed.

(** X22. In the tuning objective, a fold that is scored was handled in
    the order split, balance, fit: the validation split is taken of the
    fold's training rows, the balancer is given the training partition of
    that split, and the inner model is fitted on the balanced partition
    with the split's [eval_set] and the balancer's sample weights. *)
Theorem xgb_tuning_balances_the_partition (balancing : method_value)
    (candidate : Params) (data : dataframe) (labels : label_array)
    (groups : list Z) (train_index test_index : list nat) (score : Score) :
  XGB_bo_fold balancing candidate data labels groups train_index test_index =
    Ok score ->
  exists fold_data fold_labels fold_groups part_data part_labels eval_set
         data' labels' sample_weight inner_model,
    iloc_rows data train_index = Ok fold_data /\
    labels_getitem labels train_index = Ok fold_labels /\
    groups_getitem groups train_index = Ok fold_groups /\
    _get_validation_split fold_data fold_labels fold_groups (8 # 10) =
      Ok (part_data, part_labels, eval_set) /\
    _balance_samples part_data part_labels balancing =
      Ok (data', labels', sample_weight) /\
    inner_model_fit candidate
      (mk_fit_call data' labels' eval_set 20 sample_weight) = Ok inner_model.
Proof. apply XGB_bo_fold_ok. Qed.

End TuningFurther.

Lemma xgb_tuning_needs_2d_labels_witness :
  XGB_bo_tune (H := Demo.caps) (H0 := DemoSurface.tune)
    (DemoSurface.xgb_holding Demo.y10_series) tt <> Ok 0%Q.
Proof.
  refine (xgb_tuning_needs_2d_labels (H := Demo.caps)
            (H0 := DemoSurface.tune)
            (DemoSurface.xgb_holding Demo.y10_series) tt Demo.X10
            [0; 1; 0; 1; 0; 1; 0; 1; 0; 1]%Z Demo.g10 _ _ 0%Q
            eq_refl eq_refl eq_refl _).
  vm_compute. reflexivity.
Defined.

Lemma xgb_tuning_balances_the_partition_witness :
  XGB_bo_fold (H := Demo.caps) (H0 := DemoSurface.tune) (MStr "oversample")
    tt Demo.X10 Demo.y10 Demo.g10 [2; 3; 4; 5; 8; 9]%nat [0; 1; 6; 7]%nat =
    Ok 0%Q /\
  exists fold_data fold_labels fold_groups part_data part_labels eval_set
         data' labels' sample_weight inner_model,
    iloc_rows Demo.X10 [2; 3; 4; 5; 8; 9]%nat = Ok fold_data /\
    labels_getitem Demo.y10 [2; 3; 4; 5; 8; 9]%nat = Ok fold_labels /\
    groups_getitem Demo.g10 [2; 3; 4; 5; 8; 9]%nat = Ok fold_groups /\
    _get_validation_split fold_data fold_labels fold_groups (8 # 10) =
      Ok (part_data, part_labels, eval_set) /\
    _balance_samples part_data part_labels (MStr "oversample") =
      Ok (data', labels', sample_weight) /\
    inner_model_fit (TuneCapabilities := DemoSurface.tune) tt
      (mk_fit_call data' labels' eval_set 20 sample_weight) = Ok inner_model.
Proof.
  split; [reflexivity |].
  exact (xgb_tuning_balances_the_partition (H := Demo.caps)
           (H0 := DemoSurface.tune) (MStr "oversample") tt Demo.X10 Demo.y10
           Demo.g10 [2; 3; 4; 5; 8; 9]%nat [0; 1; 6; 7]%nat 0%Q eq_refl).
Defined.

(** The stand-in k-fold on the ten trials: three folds, the first testing
    sessions 1 and 4. *)
Example demo_kfold :
  DemoSurface.kfold 3 Demo.X10 Demo.y10 Demo.g10 =
    Ok [([2; 3; 4; 5; 8; 9], [0; 1; 6; 7]);
        ([0; 1; 4; 5; 6; 7], [2; 3; 8; 9]);
        ([0; 1; 2; 3; 6; 7; 8; 9], [4; 5])]%nat.
Proof. reflexivity. Qed.
